(** * Crypto-Ai-Agent: a shallow embedding of [crypto_agent.py]

    The script is a linear pipeline: a retrying HTTP helper
    ([fetch_with_backoff]), a caller of the generative-model endpoint
    ([call_gemini_api]), a market-data retriever that derives two indicators
    with pandas ([fetch_market_data]), a best-effort news fetch
    ([fetch_news_sentiment]), the analysis request ([get_ai_analysis]) and
    the driver ([run_analysis]).

    Modelling choices.
    - Python strings are [string]s over ASCII; the case mappings are the
      ASCII ones.
    - Decoded JSON documents are values of [json]; a decoded object is an
      association list searched from the front, a decoded number is a
      float.
    - The outside world is a record [env]: the network answers the [n]-th
      request of a run with [net env n req]; console output, sleeps and
      requests are appended to a log carried in the state.
    - Python exceptions are values of [exn]; every function of the script is
      a computation in the monad [M] (state passing, with a result that is
      either a value or a raised exception; the state survives a raise, as
      console output does).
    - float64 values are [fval]: exact rationals for the finite values, with
      the IEEE 754 rules for the infinities and NaN.  Rounding is not
      modelled, and the two zeros are not told apart.
    - The columns of the frame are float64.  pandas keeps a column of
      integers as int64 or uint64, with differences that wrap around in 64
      bits; the statements about [fetch_market_data] as a whole are for
      closes below [2^62] in magnitude, where the two agree. *)

From Stdlib Require Import ZArith QArith Qabs List String Ascii Bool Lia Lqa.
Import ListNotations.

Local Open Scope string_scope.
Local Open Scope Z_scope.

(* ------------------------------------------------------------------ *)
(** ** Python strings (ASCII) *)

Module PyStr.

Definition is_ascii_char (c : ascii) : bool := (nat_of_ascii c <? 128)%nat.

Fixpoint is_ascii (s : string) : bool :=
  match s with
  | EmptyString => true
  | String c s' => is_ascii_char c && is_ascii s'
  end.

Definition is_lower_char (c : ascii) : bool :=
  ((97 <=? nat_of_ascii c) && (nat_of_ascii c <=? 122))%nat.

Definition is_upper_char (c : ascii) : bool :=
  ((65 <=? nat_of_ascii c) && (nat_of_ascii c <=? 90))%nat.

Definition upper_char (c : ascii) : ascii :=
  if is_lower_char c then ascii_of_nat (nat_of_ascii c - 32) else c.

Definition lower_char (c : ascii) : ascii :=
  if is_upper_char c then ascii_of_nat (nat_of_ascii c + 32) else c.

(** [str.upper()] *)
Fixpoint upper (s : string) : string :=
  match s with
  | EmptyString => EmptyString
  | String c s' => String (upper_char c) (upper s')
  end.

(** [str.lower()] *)
Fixpoint lower (s : string) : string :=
  match s with
  | EmptyString => EmptyString
  | String c s' => String (lower_char c) (lower s')
  end.

(** [str.capitalize()] *)
Definition capitalize (s : string) : string :=
  match s with
  | EmptyString => EmptyString
  | String c s' => String (upper_char c) (lower s')
  end.

(** The characters [str.strip()] removes, among the ASCII ones. *)
Definition is_space (c : ascii) : bool :=
  let n := nat_of_ascii c in
  ((9 <=? n) && (n <=? 13) || (28 <=? n) && (n <=? 32))%nat.

Fixpoint lstrip (s : string) : string :=
  match s with
  | EmptyString => EmptyString
  | String c s' => if is_space c then lstrip s' else s
  end.

Fixpoint rstrip (s : string) : string :=
  match s with
  | EmptyString => EmptyString
  | String c s' =>
      match rstrip s' with
      | EmptyString => if is_space c then EmptyString else String c EmptyString
      | r => String c r
      end
  end.

(** [str.strip()] *)
Definition strip (s : string) : string := rstrip (lstrip s).

(** [sub in s] for two strings. *)
Fixpoint contains (sub s : string) : bool :=
  prefix sub s ||
  match s with
  | EmptyString => false
  | String _ s' => contains sub s'
  end.

(** Truthiness of a string: [if s:] *)
Definition truthy (s : string) : bool :=
  match s with EmptyString => false | _ => true end.

(** Two characters that are equal up to the case of a letter. *)
Definition same_letter (a b : ascii) : bool :=
  Ascii.eqb a b
  || (is_lower_char a && (nat_of_ascii a =? nat_of_ascii b + 32)%nat)
  || (is_lower_char b && (nat_of_ascii b =? nat_of_ascii a + 32)%nat).

(** Case-insensitive equality, character by character; this is the reading
    of "equal, case-insensitively" that the statements about the method
    argument use.  It is not defined through [upper]. *)
Fixpoint eq_nocase (s t : string) : bool :=
  match s, t with
  | EmptyString, EmptyString => true
  | String a s', String b t' => same_letter a b && eq_nocase s' t'
  | _, _ => false
  end.

End PyStr.

(* ------------------------------------------------------------------ *)
(** ** Decoded JSON documents and the Python operations used on them *)

(** float64 *)
Inductive fval : Type :=
| Fin (q : Q)
| PInf
| NInf
| NaN.

(** A rational stands for the finite float of that value. *)
Coercion Fin : Q >-> fval.

(** A decoded number is a float: [json.loads] also yields the three values
    that are not finite, for the texts [Infinity], [-Infinity] and [NaN]. *)
#[warnings="-register-all"]
Inductive json : Type :=
| JNull
| JBool (b : bool)
| JNum (x : fval)
| JStr (s : string)
| JArr (items : list json)
| JObj (fields : list (string * json)).
Arguments JNum x%_Q.

(** Python exceptions raised or met by the script.  All of them derive from
    [Exception]. *)
Inductive exn : Type :=
| HTTPError (status : Z)        (* requests.exceptions.HTTPError *)
| ConnectionError               (* requests.exceptions.ConnectionError *)
| Timeout                       (* requests.exceptions.Timeout *)
| ResponseJSONDecodeError       (* requests.exceptions.JSONDecodeError *)
| JSONDecodeError               (* json.JSONDecodeError *)
| KeyError (key : json)
| IndexError
| TypeError
| AttributeError
| ValueError
| UnboundLocalError
| PyException (msg : string).   (* Exception(msg) *)

(** [isinstance(e, requests.exceptions.RequestException)] *)
Definition is_RequestException (e : exn) : bool :=
  match e with
  | HTTPError _ | ConnectionError | Timeout | ResponseJSONDecodeError => true
  | _ => false
  end.

(** [isinstance(e, json.JSONDecodeError)]; the exception [response.json()]
    raises derives from it as well. *)
Definition is_JSONDecodeError (e : exn) : bool :=
  match e with
  | JSONDecodeError | ResponseJSONDecodeError => true
  | _ => false
  end.

Inductive result (A : Type) : Type :=
| Ok (a : A)
| Raise (e : exn).
Arguments Ok {A} a.
Arguments Raise {A} e.

Module Py.

Fixpoint assoc (k : string) (fields : list (string * json)) : option json :=
  match fields with
  | [] => None
  | (k', v) :: rest => if String.eqb k k' then Some v else assoc k rest
  end.

(** [d.get(k, default)] *)
Definition get (d : json) (k : string) (default : json) : result json :=
  match d with
  | JObj fields =>
      match assoc k fields with Some v => Ok v | None => Ok default end
  | _ => Raise AttributeError
  end.

(** [x[0]] *)
Definition item0 (x : json) : result json :=
  match x with
  | JArr [] => Raise IndexError
  | JArr (v :: _) => Ok v
  | JStr EmptyString => Raise IndexError
  | JStr (String c _) => Ok (JStr (String c EmptyString))
  | JObj _ => Raise (KeyError (JNum 0))
  | _ => Raise TypeError
  end.

(** [x[k]] for a string key *)
Definition getitem (x : json) (k : string) : result json :=
  match x with
  | JObj fields =>
      match assoc k fields with
      | Some v => Ok v
      | None => Raise (KeyError (JStr k))
      end
  | _ => Raise TypeError
  end.

Definition is_str (k : string) (v : json) : bool :=
  match v with JStr s => String.eqb s k | _ => false end.

(** [k in x] for a string [k] *)
Definition contains (k : string) (x : json) : result bool :=
  match x with
  | JObj fields =>
      Ok (match assoc k fields with Some _ => true | None => false end)
  | JArr items => Ok (existsb (is_str k) items)
  | JStr s => Ok (PyStr.contains k s)
  | _ => Raise TypeError
  end.

(** Truthiness of an optional list or dict argument: [if tools:] *)
Definition truthy_opt (x : option json) : bool :=
  match x with
  | None => false
  | Some (JArr []) | Some (JObj []) | Some JNull | Some (JBool false)
  | Some (JStr EmptyString) => false
  | Some (JNum (Fin q)) => negb (Qeq_bool q 0)
  | Some _ => true
  end.

End Py.

(* ------------------------------------------------------------------ *)
(** ** The outside world *)

Record response : Type := mkResponse {
  status_code : Z;
  (** what [response.json()] decodes the body to; [None] when the body is
      not JSON *)
  json_body : option json
}.

Inductive request : Type :=
| Get (url : string) (headers : list (string * string))
| Post (url : string) (headers : list (string * string))
       (payload : option json).

(** What one call of [requests.get] / [requests.post] does: it returns a
    response or raises. *)
Inductive outcome : Type :=
| Responded (r : response)
| Failed (e : exn).

(** The [print] calls of the script, one constructor per call site, with
    the values interpolated into the text. *)
Inductive message : Type :=
| MsgRetryable (status : Z) (delay : Z)
| MsgFetchFailed (e : exn)
| MsgFetchingMarket (crypto_id : string)
| MsgMarketError (e : exn)
| MsgFetchingNews (crypto_name : string)
| MsgNewsWarning (e : exn)
| MsgConsulting
| MsgInvalidJson
| MsgRawResponse (text : json)
| MsgAnalysisError (e : exn)
| MsgNoInput
| MsgAnalyzing (crypto_name : string)
| MsgTechHeader
| MsgCurrentPrice (v : json)
| MsgSMA (v : fval)
| MsgRSI (v : fval)
| MsgReportHeader
| MsgAnalysis (v : json)
| MsgRecommendation (v : json)
| MsgConfidence (v : json)
| MsgRunError (e : exn).

Inductive event : Type :=
| EvRequest (req : request)
| EvSleep (seconds : Z)
| EvPrint (m : message).

Record env : Type := mkEnv {
  (** the answer to the [n]-th request of the run *)
  net : nat -> request -> outcome;
  (** the module-level [API_KEY] *)
  API_KEY : option string;
  (** the line [input()] returns *)
  user_input : string
}.

Record state : Type := mkState {
  sent : nat;
  log : list event
}.

Definition M (A : Type) : Type := state -> result A * state.

Definition ret {A} (a : A) : M A := fun st => (Ok a, st).

Definition raise {A} (e : exn) : M A := fun st => (Raise e, st).

Definition bind {A B} (m : M A) (k : A -> M B) : M B :=
  fun st =>
    match m st with
    | (Ok a, st') => k a st'
    | (Raise e, st') => (Raise e, st')
    end.

(** [try: m except <class> as e: handler e], for the exceptions [caught]
    selects; the others propagate. *)
Definition try_except {A} (m : M A) (caught : exn -> bool)
           (handler : exn -> M A) : M A :=
  fun st =>
    match m st with
    | (Ok a, st') => (Ok a, st')
    | (Raise e, st') =>
        if caught e then handler e st' else (Raise e, st')
    end.

Definition lift {A} (r : result A) : M A := fun st => (r, st).

Declare Scope py_scope.
Delimit Scope py_scope with py.
Notation "x <- m ;; k" := (bind m (fun x => k))
  (at level 61, m at next level, right associativity) : py_scope.
Notation "m ;; k" := (bind m (fun _ => k))
  (at level 61, right associativity) : py_scope.
Local Open Scope py_scope.

Definition emit (ev : event) : M unit :=
  fun st => (Ok tt, mkState (sent st) (log st ++ [ev])).

Definition print (m : message) : M unit := emit (EvPrint m).

(** [time.sleep(d)]; a negative argument raises [ValueError]. *)
Definition sleep (d : Z) : M unit :=
  if d <? 0 then raise ValueError else emit (EvSleep d).

(** One call of [requests.get] or [requests.post]. *)
Definition send (w : env) (req : request) : M response :=
  fun st =>
    let st' := mkState (S (sent st)) (log st ++ [EvRequest req]) in
    match net w (sent st) req with
    | Responded r => (Ok r, st')
    | Failed e => (Raise e, st')
    end.

(** [response.raise_for_status()] *)
Definition raise_for_status (r : response) : M unit :=
  if (400 <=? status_code r) && (status_code r <? 600)
  then raise (HTTPError (status_code r))
  else ret tt.

(** [response.json()] *)
Definition response_json (r : response) : M json :=
  match json_body r with
  | Some v => ret v
  | None => raise ResponseJSONDecodeError
  end.

(* ------------------------------------------------------------------ *)
(** ** 1. [fetch_with_backoff] *)

Definition headers : list (string * string) :=
  [("Content-Type", "application/json")].

(** Lines 47-50: the request one attempt issues. *)
Definition build_request (url method : string) (payload : option json)
  : request :=
  if String.eqb (PyStr.upper method) "POST"
  then Post url headers payload
  else Get url headers.

(** Line 53. *)
Definition is_retryable_status (s : Z) : bool :=
  (s =? 429) || ((500 <=? s) && (s <=? 599)).

(** How one iteration of the [for] loop ends when it does not raise. *)
Inductive iteration : Type :=
| Return (r : response)
| Continue (delay : Z).

(** The body of the [try] (lines 47-60). *)
Definition try_body (w : env) (url method : string) (payload : option json)
           (delay : Z) : M iteration :=
  r <- send w (build_request url method payload) ;;
  if is_retryable_status (status_code r) then
    print (MsgRetryable (status_code r) delay) ;;
    sleep delay ;;
    ret (Continue (delay * 2))
  else
    raise_for_status r ;;
    ret (Return r).

(** The [except requests.exceptions.RequestException] clause
    (lines 62-67). *)
Definition on_request_exception (i retries delay : Z) (e : exn)
  : M iteration :=
  if i =? retries - 1 then
    print (MsgFetchFailed e) ;;
    raise e
  else
    sleep delay ;;
    ret (Continue (delay * 2)).

(** The loop [for i in range(retries)], [n] iterations from index [i]. *)
Fixpoint fetch_loop (w : env) (url method : string) (payload : option json)
         (retries : Z) (n : nat) (i : Z) (delay : Z) : M response :=
  match n with
  | O => raise (PyException "Fetch failed after all retries.")
  | S n' =>
      it <- try_except (try_body w url method payload delay)
                       is_RequestException
                       (on_request_exception i retries delay) ;;
      match it with
      | Return r => ret r
      | Continue delay' =>
          fetch_loop w url method payload retries n' (i + 1) delay'
      end
  end.

Definition fetch_with_backoff (w : env) (url method : string)
           (payload : option json) (retries delay : Z) : M response :=
  fetch_loop w url method payload retries (Z.to_nat retries) 0 delay.

(** The defaults of the signature: [method='GET', payload=None, retries=3,
    delay=2]. *)
Definition fetch_default (w : env) (url : string) : M response :=
  fetch_with_backoff w url "GET" None 3 2.

(* ------------------------------------------------------------------ *)
(** ** [call_gemini_api] *)

Definition GEMINI_API_BASE : string :=
  "https://generativelanguage.googleapis.com/v1beta/models/gemini-2.5-flash-preview-09-2025:generateContent".

Definition COINGECKO_BASE_URL : string := "https://api.coingecko.com/api/v3".

Definition text_parts (s : string) : json :=
  JObj [("parts", JArr [JObj [("text", JStr s)]])].

(** Lines 88-100. *)
Definition gemini_payload (user_prompt : string)
           (system_prompt : option string) (tools schema : option json)
  : json :=
  JObj ([("contents", JArr [text_parts user_prompt])]
        ++ (match tools with
            | Some t => if Py.truthy_opt tools then [("tools", t)] else []
            | None => []
            end)
        ++ (match system_prompt with
            | Some s =>
                if PyStr.truthy s
                then [("systemInstruction", text_parts s)] else []
            | None => []
            end)
        ++ (match schema with
            | Some sc =>
                if Py.truthy_opt schema
                then [("generationConfig",
                       JObj [("responseMimeType", JStr "application/json");
                             ("responseSchema", sc)])]
                else []
            | None => []
            end)).

(** Lines 105-111: reaching the text part of a decoded response. *)
Definition content_part_of (result : json) : M json :=
  candidates <- lift (Py.get result "candidates" (JArr [JObj []])) ;;
  candidate <- lift (Py.item0 candidates) ;;
  content <- lift (Py.get candidate "content" (JObj [])) ;;
  parts <- lift (Py.get content "parts" (JArr [JObj []])) ;;
  content_part <- lift (Py.item0 parts) ;;
  has_text <- lift (Py.contains "text" content_part) ;;
  if negb has_text
  then raise (PyException "Invalid API response structure")
  else ret content_part.

Definition call_gemini_api (w : env) (user_prompt : string)
           (system_prompt : option string) (tools schema : option json)
  : M json :=
  match API_KEY w with
  | None | Some EmptyString => raise ValueError
  | Some key =>
      let gemini_url := GEMINI_API_BASE ++ "?key=" ++ key in
      let payload := gemini_payload user_prompt system_prompt tools schema in
      r <- fetch_with_backoff w gemini_url "POST" (Some payload) 3 2 ;;
      result <- response_json r ;;
      content_part_of result
  end.

(* ------------------------------------------------------------------ *)
(** ** float64 arithmetic and the pandas operations of the script *)

Module Float.

Local Open Scope Q_scope.

Definition Qlt_bool (a b : Q) : bool := negb (Qle_bool b a).

Definition is_nan (x : fval) : bool :=
  match x with NaN => true | _ => false end.

Definition fneg (x : fval) : fval :=
  match x with
  | Fin a => Fin (- a)
  | PInf => NInf
  | NInf => PInf
  | NaN => NaN
  end.

Definition fadd (x y : fval) : fval :=
  match x, y with
  | NaN, _ | _, NaN => NaN
  | Fin a, Fin b => Fin (a + b)
  | PInf, NInf | NInf, PInf => NaN
  | PInf, _ | _, PInf => PInf
  | NInf, _ | _, NInf => NInf
  end.

Definition fsub (x y : fval) : fval := fadd x (fneg y).

(** Division; a finite non-zero value over zero is an infinity, zero over
    zero is NaN. *)
Definition fdiv (x y : fval) : fval :=
  match x, y with
  | NaN, _ | _, NaN => NaN
  | Fin a, Fin b =>
      if Qeq_bool b 0 then
        if Qeq_bool a 0 then NaN
        else if Qlt_bool 0 a then PInf else NInf
      else Fin (a / b)
  | Fin _, PInf | Fin _, NInf => Fin 0
  | PInf, Fin b => if Qlt_bool b 0 then NInf else PInf
  | NInf, Fin b => if Qlt_bool b 0 then PInf else NInf
  | _, _ => NaN
  end.

(** [x > y] and [x < y]; a comparison with NaN is false. *)
Definition fgt (x y : fval) : bool :=
  match x, y with
  | Fin a, Fin b => Qlt_bool b a
  | PInf, Fin _ | PInf, NInf | Fin _, NInf => true
  | _, _ => false
  end.

Definition flt (x y : fval) : bool := fgt y x.

(** Equality of two floats as numbers. *)
Definition feq (x y : fval) : Prop :=
  match x, y with
  | Fin a, Fin b => a == b
  | PInf, PInf | NInf, NInf | NaN, NaN => True
  | _, _ => False
  end.

End Float.

Module Pandas.

Import Float.

(** A float64 [Series] with the default index. *)
Definition series : Type := list fval.

Definition at_ (s : series) (i : nat) : fval := nth i s NaN.

(** [s.diff()]: the first entry is NaN, entry [i] is [s[i] - s[i-1]]. *)
Definition diff (s : series) : series :=
  map (fun i => match i with
                | O => NaN
                | S j => fsub (at_ s i) (at_ s j)
                end)
      (seq 0 (List.length s)).

(** [s.where(cond, other)] for a scalar [other]. *)
Definition where_ (s : series) (cond : fval -> bool) (other : fval)
  : series :=
  map (fun x => if cond x then x else other) s.

(** [-s] *)
Definition neg (s : series) : series := map fneg s.

(** [a / b] on two series of one length *)
Fixpoint div (a b : series) : series :=
  match a, b with
  | x :: a', y :: b' => fdiv x y :: div a' b'
  | _, _ => []
  end.

(** The observations of the window of width [w] that ends at [i]. *)
Definition window (s : series) (w i : nat) : list fval :=
  map (at_ s) (seq (i + 1 - w) w).

Definition fsum (l : list fval) : fval := fold_right fadd (Fin 0) l.

Definition observed (l : list fval) : list fval :=
  filter (fun x => negb (is_nan x)) l.

(** [s.rolling(window=w).mean()].  [min_periods] defaults to [w]: an entry
    is NaN until [w] observations that are not NaN lie in its window, and
    the mean of the observations after that. *)
Definition rolling_mean (w : nat) (s : series) : series :=
  map (fun i =>
         if (i + 1 <? w)%nat then NaN
         else
           let obs := observed (window s w i) in
           if (List.length obs <? w)%nat then NaN
           else fdiv (fsum obs) (Fin (inject_Z (Z.of_nat (List.length obs)))))
      (seq 0 (List.length s)).

(** [s.dropna().iloc[-1]] *)
Definition last_valid (s : series) : result fval :=
  match observed s with
  | [] => Raise IndexError
  | x :: l => Ok (last l x)
  end.

(** Line 142: the column [SMA_20]. *)
Definition SMA_20 (close : series) : series := rolling_mean 20 close.

(** Lines 145-149: the column [RSI_14].  Where the average loss is zero
    and the average gain is not, [gain / loss] is an infinity, [1 + rs] is
    that infinity, [100 / (1 + rs)] is zero and the entry is 100; this is
    so for either sign of the zero. *)
Definition RSI_14 (close : series) : series :=
  let delta := diff close in
  let gain := rolling_mean 14 (where_ delta (fun d => fgt d (Fin 0)) (Fin 0)) in
  let loss :=
    rolling_mean 14 (neg (where_ delta (fun d => flt d (Fin 0)) (Fin 0))) in
  let rs := div gain loss in
  map (fun r => fsub (Fin 100) (fdiv (Fin 100) (fadd (Fin 1) r))) rs.

(** Line 152. *)
Definition latest_sma (close : series) : result fval :=
  last_valid (SMA_20 close).

(** Line 153. *)
Definition latest_rsi (close : series) : result fval :=
  last_valid (RSI_14 close).

(** One cell of the frame: a number, or NaN for [null].  The cells are
    float64 here.  pandas keeps a column in which every number is an integer
    as an int64 or uint64 column, which holds the integers below [2^63] in
    magnitude exactly and whose differences wrap around in 64 bits; the
    model follows it for closes below [2^62] in magnitude ([plain_rows]
    below), where no difference wraps.  Cells that are neither numbers nor
    [null] are outside the model and are taken to be rejected. *)
Definition cell (v : json) : result fval :=
  match v with
  | JNum x => Ok x
  | JNull => Ok NaN
  | _ => Raise ValueError
  end.

(** One row [[timestamp, close]] of the frame. *)
Definition row (v : json) : result (fval * fval) :=
  match v with
  | JArr [t; c] =>
      match cell t, cell c with
      | Ok t', Ok c' => Ok (t', c')
      | Raise e, _ | _, Raise e => Raise e
      end
  | _ => Raise ValueError
  end.

Fixpoint rows (l : list json) : result (list (fval * fval)) :=
  match l with
  | [] => Ok []
  | v :: l' =>
      match row v, rows l' with
      | Ok r, Ok rs => Ok (r :: rs)
      | Raise e, _ | _, Raise e => Raise e
      end
  end.

(** Line 136: [pd.DataFrame(prices, columns=['timestamp', 'close'])] for
    the documented shape of [prices], a list of two-element rows of
    numbers; the frame is kept as its list of rows.  [None] for the data
    gives the frame with the two columns and no row.  Other shapes are
    taken to be rejected with [ValueError]. *)
Definition DataFrame (prices : json) : result (list (fval * fval)) :=
  match prices with
  | JArr l => rows l
  | JNull => Ok []
  | _ => Raise ValueError
  end.

(** The largest count of nanoseconds a [datetime64[ns]] holds. *)
Definition max_ns : Q := 9223372036854775807.

(** A timestamp in milliseconds that [datetime64[ns]] can hold; NaN becomes
    [NaT]. *)
Definition in_datetime_range (t : fval) : bool :=
  match t with
  | Fin ms =>
      Qle_bool (- max_ns) (ms * 1000000) && Qle_bool (ms * 1000000) max_ns
  | NaN => true
  | PInf | NInf => false
  end.

(** Line 137: [pd.to_datetime(df['timestamp'], unit='ms')].  A timestamp
    out of range makes the call raise [OutOfBoundsDatetime], which is a
    [ValueError].  The converted column is not read afterwards. *)
Definition to_datetime (column : series) : result unit :=
  if forallb in_datetime_range column then Ok tt else Raise ValueError.

End Pandas.

(* ------------------------------------------------------------------ *)
(** ** 2. [fetch_market_data] *)

Record tech_data : Type := mkTech {
  current_price : json;
  latest_sma : fval;
  latest_rsi : fval
}.

Definition history_url (crypto_id : string) : string :=
  COINGECKO_BASE_URL ++ "/coins/" ++ crypto_id
    ++ "/market_chart?vs_currency=usd&days=90&interval=daily".

Definition price_url (crypto_id : string) : string :=
  COINGECKO_BASE_URL ++ "/simple/price?ids=" ++ crypto_id
    ++ "&vs_currencies=usd".

(** Lines 136-159, once both responses are decoded. *)
Definition indicators (crypto_id : string) (history_data price_data : json)
  : M tech_data :=
  prices <- lift (Py.getitem history_data "prices") ;;
  df <- lift (Pandas.DataFrame prices) ;;
  lift (Pandas.to_datetime (map fst df)) ;;
  let close := map snd df in
  sma <- lift (Pandas.latest_sma close) ;;
  rsi <- lift (Pandas.latest_rsi close) ;;
  by_id <- lift (Py.getitem price_data crypto_id) ;;
  usd <- lift (Py.getitem by_id "usd") ;;
  ret (mkTech usd sma rsi).

(** The body of the [try] of [fetch_market_data] (lines 126-159). *)
Definition market_body (w : env) (crypto_id : string) : M tech_data :=
  history_response <- fetch_default w (history_url crypto_id) ;;
  history_data <- response_json history_response ;;
  price_response <- fetch_default w (price_url crypto_id) ;;
  price_data <- response_json price_response ;;
  indicators crypto_id history_data price_data.

Definition fetch_market_data (w : env) (crypto_id : string) : M tech_data :=
  print (MsgFetchingMarket crypto_id) ;;
  try_except (market_body w crypto_id) (fun _ => true)
             (fun e => print (MsgMarketError e) ;; raise e).

(* ------------------------------------------------------------------ *)
(** ** [fetch_news_sentiment] *)

Definition news_prompt (crypto_name : string) : string :=
  "Find the top 3-5 recent news headlines for " ++ crypto_name
    ++ " and provide a one-sentence summary of the overall sentiment (positive, negative, or neutral).".

Definition news_tools : json := JArr [JObj [("google_search", JObj [])]].

Definition news_fallback : string := "News sentiment could not be retrieved.".

(** The body of the [try] (lines 171-175). *)
Definition news_body (w : env) (crypto_name : string) : M json :=
  response_part <-
    call_gemini_api w (news_prompt crypto_name) None (Some news_tools) None ;;
  lift (Py.getitem response_part "text").

Definition fetch_news_sentiment (w : env) (crypto_name : string) : M json :=
  print (MsgFetchingNews crypto_name) ;;
  try_except (news_body w crypto_name) (fun _ => true)
             (fun e => print (MsgNewsWarning e) ;; ret (JStr news_fallback)).

(* ------------------------------------------------------------------ *)
(** ** 3. [get_ai_analysis] and 4. [run_analysis] *)

Section Analysis.

(** The library functions the two remaining functions rely on:
    [json.loads] on a string ([None] when it raises [JSONDecodeError];
    it decodes the JSON texts and, beyond JSON, [NaN], [Infinity] and
    [-Infinity] wherever a number may stand; a text nested too deeply for
    it is outside the model), [format(x, '.2f')] on a float, and [str(x)]
    on a value that is not a string. *)
Variable json_loads : string -> option json.
Variable format_2f : fval -> string.
Variable py_str : json -> string.

(** [json.loads(x)] *)
Definition loads (x : json) : result json :=
  match x with
  | JStr s =>
      match json_loads s with
      | Some v => Ok v
      | None => Raise JSONDecodeError
      end
  | _ => Raise TypeError
  end.

(** [f"{v:.2f}"] for a decoded JSON value: numbers and booleans format,
    a string has no format code [f], the other types reject the format
    string. *)
Definition format_json_2f (v : json) : result string :=
  match v with
  | JNum x => Ok (format_2f x)
  | JBool b => Ok (format_2f (Fin (if b then 1%Q else 0%Q)))
  | JStr _ => Raise ValueError
  | _ => Raise TypeError
  end.

(** [f"{v}"] *)
Definition interpolate (v : json) : string :=
  match v with
  | JStr s => s
  | _ => py_str v
  end.

Definition dquote : string := String (ascii_of_nat 34) EmptyString.

Definition system_prompt : string :=
"
    You are an expert crypto analyst. Your analysis must be concise, unbiased, 
    and directly reference the data provided. Return your analysis *only*
    in the following JSON format. Do not include any other text or markdown formatting.
    ".

(** Lines 202-217. *)
Definition user_prompt (crypto_name : string) (t : tech_data)
           (news_sentiment : json) : result string :=
  match format_json_2f (current_price t) with
  | Raise e => Raise e
  | Ok price =>
      Ok ("
    Analyze the market for " ++ crypto_name ++ ".

    Here is the live data:
    - Current Price: $" ++ price ++ "
    - 20-Day SMA: $" ++ format_2f (latest_sma t) ++ "
    - 14-Day RSI: " ++ format_2f (latest_rsi t) ++ "

    Here is the latest news sentiment:
    " ++ dquote ++ interpolate news_sentiment ++ dquote ++ "

    Analysis guidance:
    - If Price > SMA, it's a bullish signal. If Price < SMA, it's bearish.
    - If RSI > 70, it's overbought (bearish). If RSI < 30, it's oversold (bullish).
    - Synthesize these technical signals with the news sentiment for a final recommendation.
    ")
  end.

Definition string_field (description : string) : json :=
  JObj [("type", JStr "STRING"); ("description", JStr description)].

(** Lines 220-237. *)
Definition schema : json :=
  JObj [("type", JStr "OBJECT");
        ("properties",
         JObj [("analysis",
                string_field "A concise 2-3 sentence analysis synthesizing the technical data and news.");
               ("recommendation",
                string_field "A clear recommendation: 'Strong Buy', 'Buy', 'Hold', 'Sell', or 'Strong Sell'.");
               ("confidence",
                string_field "'High', 'Medium', or 'Low' confidence in the recommendation.")]);
        ("required",
         JArr [JStr "analysis"; JStr "recommendation"; JStr "confidence"])].

(** The two [except] clauses of [get_ai_analysis] (lines 244-250);
    [response_part] is [None] while the local variable is unbound. *)
Definition on_analysis_error (response_part : option json) (e : exn)
  : M json :=
  if is_JSONDecodeError e then
    print MsgInvalidJson ;;
    match response_part with
    | None => raise UnboundLocalError
    | Some part =>
        raw <- lift (Py.get part "text" (JStr "N/A")) ;;
        print (MsgRawResponse raw) ;;
        raise e
    end
  else
    print (MsgAnalysisError e) ;;
    raise e.

(** Line 242, with its handlers. *)
Definition parse_report (response_part : json) : M json :=
  try_except (text <- lift (Py.getitem response_part "text") ;;
              lift (loads text))
             (fun _ => true)
             (on_analysis_error (Some response_part)).

Definition get_ai_analysis (w : env) (crypto_name : string) (t : tech_data)
           (news_sentiment : json) : M json :=
  print MsgConsulting ;;
  prompt <- lift (user_prompt crypto_name t news_sentiment) ;;
  response_part <-
    try_except (call_gemini_api w prompt (Some system_prompt) None
                                (Some schema))
               (fun _ => true)
               (on_analysis_error None) ;;
  parse_report response_part.

(** Lines 260-269. *)
Definition crypto_map : list (string * (string * string)) :=
  [("bitcoin", ("bitcoin", "Bitcoin"));
   ("btc", ("bitcoin", "Bitcoin"));
   ("ethereum", ("ethereum", "Ethereum"));
   ("eth", ("ethereum", "Ethereum"));
   ("solana", ("solana", "Solana"));
   ("sol", ("solana", "Solana"));
   ("dogecoin", ("dogecoin", "Dogecoin"));
   ("doge", ("dogecoin", "Dogecoin"))].

Fixpoint map_get {V} (m : list (string * V)) (k : string) (default : V) : V :=
  match m with
  | [] => default
  | (k', v) :: rest => if String.eqb k k' then v else map_get rest k default
  end.

(** Line 278: the provider's id and the display name of the input. *)
Definition resolve (crypto_input : string) : string * string :=
  map_get crypto_map crypto_input
          (crypto_input, PyStr.capitalize crypto_input).

(** Lines 291-299: the two sections of the report. *)
Definition print_report (t : tech_data) (ai_report : json) : M unit :=
  print MsgTechHeader ;;
  _ <- lift (format_json_2f (current_price t)) ;;
  print (MsgCurrentPrice (current_price t)) ;;
  print (MsgSMA (latest_sma t)) ;;
  print (MsgRSI (latest_rsi t)) ;;
  print MsgReportHeader ;;
  analysis <- lift (Py.getitem ai_report "analysis") ;;
  print (MsgAnalysis analysis) ;;
  recommendation <- lift (Py.getitem ai_report "recommendation") ;;
  print (MsgRecommendation recommendation) ;;
  confidence <- lift (Py.getitem ai_report "confidence") ;;
  print (MsgConfidence confidence).

(** The body of the [try] of [run_analysis] (lines 272-299). *)
Definition run_body (w : env) : M unit :=
  let crypto_input := PyStr.strip (PyStr.lower (user_input w)) in
  if negb (PyStr.truthy crypto_input) then print MsgNoInput
  else
    let '(coin_id, crypto_name) := resolve crypto_input in
    print (MsgAnalyzing crypto_name) ;;
    t <- fetch_market_data w coin_id ;;
    news_sentiment <- fetch_news_sentiment w crypto_name ;;
    ai_report <- get_ai_analysis w crypto_name t news_sentiment ;;
    print_report t ai_report.

Definition run_analysis (w : env) : M unit :=
  try_except (run_body w) (fun _ => true) (fun e => print (MsgRunError e)).

End Analysis.

(** The messages that make up the report. *)
Definition is_report_message (m : message) : bool :=
  match m with
  | MsgTechHeader | MsgCurrentPrice _ | MsgSMA _ | MsgRSI _
  | MsgReportHeader | MsgAnalysis _ | MsgRecommendation _
  | MsgConfidence _ => true
  | _ => false
  end.

Definition is_report_event (ev : event) : bool :=
  match ev with EvPrint m => is_report_message m | _ => false end.

(** Projections of a log. *)
Definition sleeps (l : list event) : list Z :=
  flat_map (fun ev => match ev with EvSleep d => [d] | _ => [] end) l.

Definition requests (l : list event) : list request :=
  flat_map (fun ev => match ev with EvRequest r => [r] | _ => [] end) l.

Definition report_events (l : list event) : list event :=
  filter is_report_event l.

Definition initial : state := mkState 0 [].

(* ------------------------------------------------------------------ *)
(** ** Vocabulary of the statements *)

(** The delays [d, 2d, 4d, ...], [m] of them. *)
Definition doubling (d : Z) (m : nat) : list Z :=
  map (fun k => d * 2 ^ Z.of_nat k) (seq 0 m).

(** A failure the loop answers with another attempt: a response with status
    429 or 5xx, or a [RequestException] raised by the transport. *)
Definition retryable_failure (o : outcome) : bool :=
  match o with
  | Responded r => is_retryable_status (status_code r)
  | Failed e => is_RequestException e
  end.

(** One iteration, with its handler. *)
Definition iterate (w : env) (url method : string) (payload : option json)
           (retries i delay : Z) : M iteration :=
  try_except (try_body w url method payload delay) is_RequestException
             (on_request_exception i retries delay).

(** The sleeps a computation added to the log, given the states before and
    after it. *)
Definition new_sleeps (before after : state) : list Z :=
  skipn (List.length (sleeps (log before))) (sleeps (log after)).

Definition new_requests (before after : state) : list request :=
  skipn (List.length (requests (log before))) (requests (log after)).

(** A transport that answers 503 twice and then succeeds. *)
Definition flaky_net (n : nat) (_ : request) : outcome :=
  match n with
  | O | S O => Responded (mkResponse 503 None)
  | _ => Responded (mkResponse 200 (Some (JObj [])))
  end.

Definition flaky_env : env := mkEnv flaky_net (Some "k") "btc".

(** A provider that answers every request with status 404. *)
Definition not_found_net (_ : nat) (_ : request) : outcome :=
  Responded (mkResponse 404 None).

Definition not_found_env : env := mkEnv not_found_net (Some "k") "btc".

(** No lower-case letter occurs in the string. *)
Fixpoint no_lower (s : string) : bool :=
  match s with
  | EmptyString => true
  | String c s' => negb (PyStr.is_lower_char c) && no_lower s'
  end.

(** A provider that answers every request with status 200 and the given
    decoded body. *)
Definition answering (body : json) : env :=
  mkEnv (fun _ _ => Responded (mkResponse 200 (Some body))) (Some "k") "btc".

(** The body [{"candidates": []}]. *)
Definition empty_candidates : json := JObj [("candidates", JArr [])].

(** The body [{"candidates": [{"content": {"parts": []}}]}]. *)
Definition empty_parts : json :=
  JObj [("candidates", JArr [JObj [("content", JObj [("parts", JArr [])])]])].

(** A decoded body in which a key on the way to the text is absent: the
    key [candidates], or [content] in the first candidate, or [parts] in the
    content, or [text] in the first part. *)
Inductive missing_key : json -> Prop :=
| no_candidates fields :
    Py.assoc "candidates" fields = None ->
    missing_key (JObj fields)
| no_content fields c rest :
    Py.assoc "candidates" fields = Some (JArr (JObj c :: rest)) ->
    Py.assoc "content" c = None ->
    missing_key (JObj fields)
| no_parts fields c rest ct :
    Py.assoc "candidates" fields = Some (JArr (JObj c :: rest)) ->
    Py.assoc "content" c = Some (JObj ct) ->
    Py.assoc "parts" ct = None ->
    missing_key (JObj fields)
| no_text fields c rest ct p rest' :
    Py.assoc "candidates" fields = Some (JArr (JObj c :: rest)) ->
    Py.assoc "content" c = Some (JObj ct) ->
    Py.assoc "parts" ct = Some (JArr (JObj p :: rest')) ->
    Py.assoc "text" p = None ->
    missing_key (JObj fields).

Definition invalid_structure : exn :=
  PyException "Invalid API response structure".

(** A run without a resolved credential. *)
Definition no_key_env : env := mkEnv not_found_net None "btc".

(** The state in which the body of [fetch_news_sentiment] starts. *)
Definition news_start (crypto_name : string) (st : state) : state :=
  snd (print (MsgFetchingNews crypto_name) st).

(** A computation that prints no line of the report. *)
Definition quiet {A} (m : M A) : Prop :=
  forall st r st',
    m st = (r, st') -> report_events (log st') = report_events (log st).

(** The state in which the body of [fetch_market_data] starts. *)
Definition market_start (crypto_id : string) (st : state) : state :=
  snd (print (MsgFetchingMarket crypto_id) st).

(** The closes 1, 2, ..., 20 as the provider sends them. *)
Definition sample_prices : json :=
  JArr (map (fun k => JArr [JNum (inject_Z (Z.of_nat k));
                            JNum (inject_Z (Z.of_nat (k + 1)))])
            (seq 0 20)).

Definition text_response (s : string) : response :=
  mkResponse 200
    (Some (JObj [("candidates",
                  JArr [JObj [("content", text_parts s)]])])).

(** A scripted provider: a price history, a spot price, a news summary, and
    then a model answer whose text is not JSON. *)
Definition scripted_net (n : nat) (_ : request) : outcome :=
  match n with
  | 0%nat => Responded (mkResponse 200 (Some (JObj [("prices", sample_prices)])))
  | 1%nat =>
      Responded
        (mkResponse 200
           (Some (JObj [("bitcoin", JObj [("usd", JNum 50000%Q)])])))
  | 2%nat => Responded (text_response "Mostly positive.")
  | _ => Responded (text_response "Sure! Here is my analysis")
  end.

Definition scripted_env : env := mkEnv scripted_net (Some "k") " BTC ".

(** A provider with a history of three points only. *)
Definition short_history : json :=
  JObj [("prices", JArr [JArr [JNum 0%Q; JNum 1%Q]; JArr [JNum 1%Q; JNum 2%Q];
                         JArr [JNum 2%Q; JNum 3%Q]])].

Definition short_env : env := answering short_history.

(** Stand-ins for the library functions in the closed examples: a decoder
    that knows the three JSON literals, and fixed renderings. *)
Definition literal_loads (s : string) : option json :=
  if String.eqb s "null" then Some JNull
  else if String.eqb s "true" then Some (JBool true)
  else if String.eqb s "false" then Some (JBool false)
  else None.

Definition fixed_2f (_ : fval) : string := "0.00".

Definition fixed_str (_ : json) : string := "None".

(** The run gets as far as the analysis step: the input is not empty, the
    market data [t] and the news text [news] were obtained, and [st2] is
    the state in which [get_ai_analysis] is called. *)
Definition reaches_analysis (w : env) (st : state) (crypto_name : string)
           (t : tech_data) (news : json) (st2 : state) : Prop :=
  let crypto_input := PyStr.strip (PyStr.lower (user_input w)) in
  PyStr.truthy crypto_input = true /\
  crypto_name = snd (resolve crypto_input) /\
  exists st1,
    fetch_market_data w (fst (resolve crypto_input))
                      (snd (print (MsgAnalyzing crypto_name) st))
      = (Ok t, st1) /\
    fetch_news_sentiment w crypto_name st1 = (Ok news, st2).

(** The values the scripted run passes from step to step. *)
Definition scripted_market : result tech_data * state :=
  fetch_market_data scripted_env "bitcoin"
                    (snd (print (MsgAnalyzing "Bitcoin") initial)).

Definition scripted_tech : tech_data :=
  match fst scripted_market with
  | Ok t => t
  | Raise _ => mkTech JNull NaN NaN
  end.

Definition scripted_st2 : state :=
  snd (fetch_news_sentiment scripted_env "Bitcoin" (snd scripted_market)).

Definition scripted_prompt : string :=
  match user_prompt fixed_2f fixed_str "Bitcoin" scripted_tech
                    (JStr "Mostly positive.") with
  | Ok p => p
  | Raise _ => EmptyString
  end.

Definition scripted_call : result json * state :=
  call_gemini_api scripted_env scripted_prompt (Some system_prompt) None
                  (Some schema) (snd (print MsgConsulting scripted_st2)).

Definition scripted_part : json :=
  match fst scripted_call with
  | Ok part => part
  | Raise _ => JNull
  end.

(** The first request of [fetch_market_data], for the price history. *)
Definition history_fetch (w : env) (crypto_id : string) (st : state)
  : result response * state :=
  fetch_default w (history_url crypto_id) (market_start crypto_id st).

(** *** Statistics on the closes, in the words of the specification *)

Definition Qsum (l : list Q) : Q := fold_right Qplus 0%Q l.

(** The arithmetic mean of a list. *)
Definition mean (l : list Q) : Q :=
  (Qsum l / inject_Z (Z.of_nat (List.length l)))%Q.

(** The last [k] elements of a list. *)
Definition last_n {A} (k : nat) (l : list A) : list A :=
  skipn (List.length l - k) l.

(** The trailing [k] elements that end at position [i]. *)
Definition trailing {A} (k i : nat) (l : list A) : list A :=
  firstn k (skipn (i + 1 - k) l).

(** The series whose entry [i] is [F i], for [i < n]. *)
Definition tab (F : nat -> fval) (n : nat) : Pandas.series :=
  map F (seq 0 n).

(** The closes 1, 2, ..., 20. *)
Definition one_to_twenty : list Q :=
  map (fun k => inject_Z (Z.of_nat k)) (seq 1 20).

(** *** The relative-strength index, in the words of the specification *)






(** [100 - 100 / (1 + gain / loss)] *)
Definition index_of (gain loss : fval) : fval :=
  Float.fsub (Fin 100) (Float.fdiv (Fin 100)
                          (Float.fadd (Fin 1) (Float.fdiv gain loss))).


(** *** The columns the code computes, entry by entry *)

(** Entry [j] of [delta.where(delta > 0, 0)]; the first delta is NaN and
    is replaced by 0. *)
Definition gain_term (closes : list Q) (j : nat) : Q :=
  match j with
  | O => 0%Q
  | S k =>
      let d := (nth j closes 0 + - nth k closes 0)%Q in
      if Float.Qlt_bool 0 d then d else 0%Q
  end.

(** Entry [j] of [-delta.where(delta < 0, 0)]. *)
Definition loss_term (closes : list Q) (j : nat) : Q :=
  match j with
  | O => (- 0)%Q
  | S k =>
      let d := (nth j closes 0 + - nth k closes 0)%Q in
      (- (if Float.Qlt_bool d 0 then d else 0))%Q
  end.

(** Entry [i] of a 14-period rolling mean over finite terms. *)
Definition mean_14 (term : nat -> Q) (i : nat) : fval :=
  if (i + 1 <? 14)%nat then NaN
  else Float.fdiv (Fin (Qsum (map term (seq (i + 1 - 14) 14))))
                  (Fin (inject_Z (Z.of_nat 14))).

(** Entry [i] of the column [RSI_14]. *)
Definition code_rsi_at (closes : list Q) (i : nat) : fval :=
  index_of (mean_14 (gain_term closes) i) (mean_14 (loss_term closes) i).

(** Monotone series of closes. *)
Definition strictly_increasing (l : list Q) : Prop :=
  forall i, (S i < List.length l)%nat -> (nth i l 0 < nth (S i) l 0)%Q.


(** Fifteen rising and fifteen falling closes. *)
Definition rising : list Q :=
  map (fun k => inject_Z (Z.of_nat k)) (seq 1 15).


(** *** Vocabulary for the further properties of the retry loop *)

(** The state right after one request was sent. *)
Definition after_request (req : request) (st : state) : state :=
  mkState (S (sent st)) (log st ++ [EvRequest req]).

(** A status the helper hands back to its caller: not one it retries on,
    and not one [raise_for_status] rejects. *)
Definition acceptable_status (s : Z) : bool :=
  negb (is_retryable_status s) && negb ((400 <=? s) && (s <? 600)).

(** An answer with status 429 or 5xx. *)
Definition retryable_answer (o : outcome) : bool :=
  match o with
  | Responded r => is_retryable_status (status_code r)
  | Failed _ => false
  end.

Definition exhausted : exn := PyException "Fetch failed after all retries.".

(** A transport that fails twice with a connection error and then raises
    an exception that is not a [RequestException]. *)
Definition broken_net (n : nat) (_ : request) : outcome :=
  match n with
  | O | S O => Failed ConnectionError
  | _ => Failed TypeError
  end.

Definition broken_env : env := mkEnv broken_net (Some "k") "btc".

(** A transport that is always rate-limited, and one that is never
    reachable. *)
Definition limited_env : env :=
  mkEnv (fun _ _ => Responded (mkResponse 429 None)) (Some "k") "btc".

Definition offline_env : env :=
  mkEnv (fun _ _ => Failed ConnectionError) (Some "k") "btc".

(** *** Vocabulary for the requests a computation sends *)

(** A computation that sends nothing. *)
Definition silent {A} (m : M A) : Prop :=
  forall st r st',
    m st = (r, st') ->
    requests (log st') = requests (log st) /\ sent st' = sent st.

(** A computation that sends at most [k] requests, all of them in [P]. *)
Definition sends {A} (P : request -> Prop) (k : nat) (m : M A) : Prop :=
  forall st r st',
    m st = (r, st') ->
    exists l,
      requests (log st') = (requests (log st) ++ l)%list /\
      Forall P l /\
      (List.length l <= k)%nat /\
      sent st' = (sent st + List.length l)%nat.

(** Line 86: the endpoint with the key appended. *)
Definition gemini_url (key : string) : string :=
  (GEMINI_API_BASE ++ "?key=" ++ key)%string.

(** A POST to the model's endpoint that carries the credential of the
    run. *)
Definition is_gemini_post (w : env) (req : request) : Prop :=
  exists key payload,
    API_KEY w = Some key /\ key <> EmptyString /\
    req = Post (gemini_url key) headers (Some payload).

(** A GET of one of the two market-data URLs of an asset. *)
Definition is_market_get (crypto_id : string) (req : request) : Prop :=
  req = Get (history_url crypto_id) headers \/
  req = Get (price_url crypto_id) headers.

(** The asset id a run works on. *)
Definition run_coin_id (w : env) : string :=
  fst (resolve (PyStr.strip (PyStr.lower (user_input w)))).

(** A decoded body whose first candidate has content with a first part
    that contains ["text"]. *)
Inductive has_text_part : json -> json -> Prop :=
| text_part_found fields c rest ct part rest' :
    Py.assoc "candidates" fields = Some (JArr (JObj c :: rest)) ->
    Py.assoc "content" c = Some (JObj ct) ->
    Py.assoc "parts" ct = Some (JArr (part :: rest')) ->
    Py.contains "text" part = Ok true ->
    has_text_part (JObj fields) part.

(** A provider that answers every request with status 200 and a model
    response carrying the text [s]. *)
Definition text_env (s : string) : env :=
  mkEnv (fun _ _ => Responded (text_response s)) (Some "k") "btc".

(** *** The provider's price history *)

(** The [prices] value the provider sends for rows of timestamp and
    close. *)
Definition prices_json (rows : list (Q * Q)) : json :=
  JArr (map (fun tc => JArr [JNum (Fin (fst tc)); JNum (Fin (snd tc))]) rows).


(** A history of twenty-five equal closes. *)
Definition flat_rows : list (Q * Q) :=
  map (fun k => (inject_Z (Z.of_nat k), 7%Q)) (seq 0 25).

(** A close below [2^62] in magnitude: a column of such closes never
    becomes a uint64 column, and no difference of two of them leaves the
    64-bit range. *)
Definition close_in_range (c : Q) : bool :=
  Float.Qlt_bool (- 4611686018427387904) c
  && Float.Qlt_bool c 4611686018427387904.

(** Rows that the frame handles as the model does: every timestamp is one
    that line 137 converts, every close is in range. *)
Definition plain_rows (rows : list (Q * Q)) : Prop :=
  Forall (fun tc => Pandas.in_datetime_range (Fin (fst tc)) = true /\
                    close_in_range (snd tc) = true) rows.

(** A line of white space only. *)
Fixpoint all_space (s : string) : bool :=
  match s with
  | EmptyString => true
  | String c s' => PyStr.is_space c && all_space s'
  end.

(** The eight lines of a complete report. *)
Definition full_report (t : tech_data) (analysis recommendation confidence : json)
  : list event :=
  [EvPrint MsgTechHeader;
   EvPrint (MsgCurrentPrice (current_price t));
   EvPrint (MsgSMA (latest_sma t));
   EvPrint (MsgRSI (latest_rsi t));
   EvPrint MsgReportHeader;
   EvPrint (MsgAnalysis analysis);
   EvPrint (MsgRecommendation recommendation);
   EvPrint (MsgConfidence confidence)].

(** The lines printed before the first field of the report is read. *)
Definition technical_section (t : tech_data) : list event :=
  [EvPrint MsgTechHeader;
   EvPrint (MsgCurrentPrice (current_price t));
   EvPrint (MsgSMA (latest_sma t));
   EvPrint (MsgRSI (latest_rsi t));
   EvPrint MsgReportHeader].

(** A scripted provider like [scripted_net] whose last answer is the JSON
    literal [null], and one whose last answer has a body that is not
    JSON. *)
Definition null_report_net (n : nat) (req : request) : outcome :=
  match n with
  | 3%nat => Responded (text_response "null")
  | _ => scripted_net n req
  end.

Definition null_report_env : env :=
  mkEnv null_report_net (Some "k") " BTC ".

Definition garbled_net (n : nat) (req : request) : outcome :=
  match n with
  | 3%nat => Responded (mkResponse 200 None)
  | _ => scripted_net n req
  end.

Definition garbled_env : env := mkEnv garbled_net (Some "k") " BTC ".

(** A run whose input line is blank. *)
Definition blank_env : env := mkEnv scripted_net (Some "k") "   ".

(** *** Closed examples for the analysis step and the run *)

Definition sample_tech : tech_data := mkTech (JNum 101%Q) (Fin 100%Q) (Fin 55%Q).

Definition sample_prompt : string :=
  match user_prompt fixed_2f fixed_str "Bitcoin" sample_tech
                    (JStr "calm") with
  | Ok p => p
  | Raise _ => EmptyString
  end.

Definition text_body (s : string) : json :=
  JObj [("candidates", JArr [JObj [("content", text_parts s)]])].

(** A provider whose bodies are never JSON. *)
Definition no_json_env : env :=
  mkEnv (fun _ _ => Responded (mkResponse 200 None)) (Some "k") "btc".

Definition sample_report : json :=
  JObj [("analysis", JStr "Price above the average.");
        ("recommendation", JStr "Buy");
        ("confidence", JStr "High")].

(** A stand-in decoder that also knows one report. *)
Definition report_loads (s : string) : option json :=
  if String.eqb s "report" then Some sample_report else literal_loads s.

(** A scripted provider like [scripted_net] whose last answer carries the
    text of that report. *)
Definition report_net (n : nat) (req : request) : outcome :=
  match n with
  | 3%nat => Responded (text_response "report")
  | _ => scripted_net n req
  end.

Definition report_env : env := mkEnv report_net (Some "k") " BTC ".

(** The values a run on Bitcoin passes from step to step. *)
Definition run_market (w : env) : result tech_data * state :=
  fetch_market_data w "bitcoin"
                    (snd (print (MsgAnalyzing "Bitcoin") initial)).

Definition run_tech (w : env) : tech_data :=
  match fst (run_market w) with
  | Ok t => t
  | Raise _ => mkTech JNull NaN NaN
  end.

Definition run_st2 (w : env) : state :=
  snd (fetch_news_sentiment w "Bitcoin" (snd (run_market w))).

Definition run_ai (loads : string -> option json) (w : env)
  : result json * state :=
  get_ai_analysis loads fixed_2f fixed_str w "Bitcoin" (run_tech w)
                  (JStr "Mostly positive.") (run_st2 w).

(** *** The entry point (lines 304-318) *)

(** The two lines printed when no credential can be resolved. *)
Inductive key_message : Type :=
| MsgKeyNotProvided
| MsgKeyUsage.

(** What the entry point does: it prints the two lines about the missing
    key, or it runs the analysis. *)
Inductive main_outcome : Type :=
| KeyMissing (printed : list key_message)
| Analysed (run : result unit * state).

(** Lines 310-312: a non-empty [--api-key] replaces the module-level
    [API_KEY]. *)
Definition resolve_key (w : env) (api_key_arg : option string)
  : option string :=
  match api_key_arg with
  | Some k => if PyStr.truthy k then Some k else API_KEY w
  | None => API_KEY w
  end.

Definition with_key (w : env) (key : option string) : env :=
  mkEnv (net w) key (user_input w).

(** Lines 310-318; [args.api_key] is [api_key_arg]. *)
Definition main (json_loads : string -> option json)
           (format_2f : fval -> string) (py_str : json -> string)
           (w : env) (api_key_arg : option string) (st : state)
  : main_outcome :=
  let key := resolve_key w api_key_arg in
  match key with
  | None | Some EmptyString => KeyMissing [MsgKeyNotProvided; MsgKeyUsage]
  | Some _ =>
      Analysed (run_analysis json_loads format_2f py_str (with_key w key) st)
  end.

(** A run whose environment holds one key while another is given on the
    command line. *)
Definition env_key_env : env := mkEnv report_net (Some "from-env") " BTC ".

(** *** JSON texts *)

(** The grammar of RFC 8259, as a recogniser: what the specification calls
    valid JSON.  The decoder of the program is not used here. *)
Module JsonText.

Local Open Scope char_scope.

Definition quote : ascii := ascii_of_nat 34.

Definition is_ws (c : ascii) : bool :=
  (c =? " ") || (c =? "009") || (c =? "010") || (c =? "013").

Definition is_digit (c : ascii) : bool :=
  (48 <=? nat_of_ascii c)%nat && (nat_of_ascii c <=? 57)%nat.

Definition is_hex (c : ascii) : bool :=
  is_digit c
  || ((65 <=? nat_of_ascii c)%nat && (nat_of_ascii c <=? 70)%nat)
  || ((97 <=? nat_of_ascii c)%nat && (nat_of_ascii c <=? 102)%nat).

Fixpoint skip_ws (s : string) : string :=
  match s with
  | String c r => if is_ws c then skip_ws r else s
  | EmptyString => s
  end.

Fixpoint skip_digits (s : string) : string :=
  match s with
  | String c r => if is_digit c then skip_digits r else s
  | EmptyString => s
  end.

(** One digit or more. *)
Definition digits1 (s : string) : option string :=
  match s with
  | String c r => if is_digit c then Some (skip_digits r) else None
  | EmptyString => None
  end.

(** What is left of [s] after the literal [p]. *)
Fixpoint after (p s : string) : option string :=
  match p with
  | EmptyString => Some s
  | String a p' =>
      match s with
      | String b s' => if a =? b then after p' s' else None
      | EmptyString => None
      end
  end.

Definition exponent (s : string) : option string :=
  match s with
  | String c r =>
      if (c =? "e") || (c =? "E") then
        match r with
        | String d r' => if (d =? "+") || (d =? "-") then digits1 r'
                         else digits1 r
        | EmptyString => None
        end
      else Some s
  | EmptyString => Some s
  end.

Definition fraction (s : string) : option string :=
  match s with
  | String "." r =>
      match digits1 r with
      | Some r' => exponent r'
      | None => None
      end
  | _ => exponent s
  end.

(** [[ "-" ] int [ frac ] [ exp ]]; no leading zero. *)
Definition number (s : string) : option string :=
  let unsigned := match s with String "-" r => r | _ => s end in
  match unsigned with
  | String "0" r => fraction r
  | String c r => if is_digit c then fraction (skip_digits r) else None
  | EmptyString => None
  end.

(** The rest of a string after its opening quote. *)
Fixpoint string_rest (s : string) : option string :=
  match s with
  | EmptyString => None
  | String c r =>
      if c =? quote then Some r
      else if c =? "\" then
        match r with
        | String "u" (String h1 (String h2 (String h3 (String h4 r')))) =>
            if is_hex h1 && is_hex h2 && is_hex h3 && is_hex h4
            then string_rest r' else None
        | String e r' =>
            if (e =? quote) || (e =? "\") || (e =? "/") || (e =? "b")
               || (e =? "f") || (e =? "n") || (e =? "r") || (e =? "t")
            then string_rest r' else None
        | EmptyString => None
        end
      else if (nat_of_ascii c <? 32)%nat then None
      else string_rest r
  end.

(** A value, the elements of an array after its bracket, and the members
    of an object after its brace; [n] bounds the number of calls. *)
Fixpoint value (n : nat) (s : string) {struct n} : option string :=
  match n with
  | O => None
  | S m =>
      match s with
      | String "[" r =>
          match skip_ws r with
          | String "]" r' => Some r'
          | r' => elements m r'
          end
      | String "{" r =>
          match skip_ws r with
          | String "}" r' => Some r'
          | r' => members m r'
          end
      | String c r =>
          if c =? quote then string_rest r
          else if (c =? "-") || is_digit c then number s
          else
            match after "true" s, after "false" s, after "null" s with
            | Some r', _, _ | _, Some r', _ | _, _, Some r' => Some r'
            | None, None, None => None
            end
      | EmptyString => None
      end
  end
with elements (n : nat) (s : string) {struct n} : option string :=
  match n with
  | O => None
  | S m =>
      match value m s with
      | Some r =>
          match skip_ws r with
          | String "," r' => elements m (skip_ws r')
          | String "]" r' => Some r'
          | _ => None
          end
      | None => None
      end
  end
with members (n : nat) (s : string) {struct n} : option string :=
  match n with
  | O => None
  | S m =>
      match s with
      | String c r =>
          if c =? quote then
            match string_rest r with
            | Some r1 =>
                match skip_ws r1 with
                | String ":" r2 =>
                    match value m (skip_ws r2) with
                    | Some r3 =>
                        match skip_ws r3 with
                        | String "," r4 => members m (skip_ws r4)
                        | String "}" r4 => Some r4
                        | _ => None
                        end
                    | None => None
                    end
                | _ => None
                end
            | None => None
            end
          else None
      | EmptyString => None
      end
  end.

(** A JSON text: one value between optional white space.  Every call
    above but the first follows at least one character read, so twice the
    length of the text bounds their number. *)
Definition is_json (s : string) : bool :=
  match value (2 * String.length s + 2) (skip_ws s) with
  | Some r =>
      match skip_ws r with
      | EmptyString => true
      | _ => false
      end
  | None => false
  end.

(** [s] between double quotes. *)
Definition quoted (s : string) : string :=
  String quote (s ++ String quote EmptyString)%string.

End JsonText.

(** [json.loads] on the six one-word texts it accepts: the three literals
    of JSON, and [NaN], [Infinity] and [-Infinity], which it decodes to the
    floats of these names. *)
Definition lenient_loads (s : string) : option json :=
  if String.eqb s "NaN" then Some (JNum NaN)
  else if String.eqb s "Infinity" then Some (JNum PInf)
  else if String.eqb s "-Infinity" then Some (JNum NInf)
  else literal_loads s.

(** A scripted provider like [scripted_net] whose last answer carries the
    text [NaN]. *)
Definition nan_net (n : nat) (req : request) : outcome :=
  match n with
  | 3%nat => Responded (text_response "NaN")
  | _ => scripted_net n req
  end.

Definition nan_env : env := mkEnv nan_net (Some "k") " BTC ".

(** *** The relative-strength index, position by position *)




(** *** What the provider answers to [fetch_market_data] *)








(* ================================================================== *)
(** * Properties *)

Local Open Scope list_scope.

(** ** The log projections *)

Lemma sleeps_app l1 l2 : sleeps (l1 ++ l2) = sleeps l1 ++ sleeps l2.
Proof. unfold sleeps. apply flat_map_app. Qed.

Lemma requests_app l1 l2 : requests (l1 ++ l2) = requests l1 ++ requests l2.
Proof. unfold requests. apply flat_map_app. Qed.

Lemma report_events_app l1 l2 :
  report_events (l1 ++ l2) = report_events l1 ++ report_events l2.
Proof. unfold report_events. apply filter_app. Qed.

Lemma doubling_S d m : doubling d (S m) = d :: doubling (d * 2) m.
Proof.
  unfold doubling. cbn [seq map]. f_equal.
  - cbn. lia.
  - rewrite <- seq_shift, map_map. apply map_ext. intros k.
    rewrite Nat2Z.inj_succ, Z.pow_succ_r by lia. lia.
Qed.

Lemma doubling_length d m : List.length (doubling d m) = m.
Proof. unfold doubling. now rewrite length_map, length_seq. Qed.

Lemma doubling_nth d m k :
  (k < m)%nat -> nth_error (doubling d m) k = Some (d * 2 ^ Z.of_nat k).
Proof.
  intros Hk. unfold doubling.
  rewrite nth_error_map, nth_error_seq.
  destruct (Nat.ltb_spec k m); [reflexivity | lia].
Qed.

(** ** One iteration of the retry loop *)

Lemma fetch_loop_S w url method payload retries n i delay st :
  fetch_loop w url method payload retries (S n) i delay st =
  match iterate w url method payload retries i delay st with
  | (Ok (Return r), st') => (Ok r, st')
  | (Ok (Continue d), st') =>
      fetch_loop w url method payload retries n (i + 1) d st'
  | (Raise e, st') => (Raise e, st')
  end.
Proof.
  cbn [fetch_loop]. unfold bind, iterate.
  destruct (try_except _ _ _ st) as [[[r|d]|e] st']; reflexivity.
Qed.

Ltac log_step :=
  cbn; intros [= <- <-]; cbn;
  rewrite ?sleeps_app, ?requests_app; cbn; rewrite ?app_nil_r;
  repeat split; auto; try discriminate; try (intros; congruence).

(** What one iteration leaves in the log: one request, at most one sleep of
    the current delay, and a doubled delay when the loop goes on. *)
Lemma iterate_log w url method payload retries i delay st :
  forall r st', iterate w url method payload retries i delay st = (r, st') ->
  sent st' = S (sent st) /\
  requests (log st') =
    requests (log st) ++ [build_request url method payload] /\
  (sleeps (log st') = sleeps (log st) \/
   sleeps (log st') = sleeps (log st) ++ [delay]) /\
  (forall d, r = Ok (Continue d) ->
     d = delay * 2 /\ sleeps (log st') = sleeps (log st) ++ [delay]).
Proof.
  intros r st'.
  unfold iterate, try_except, try_body, on_request_exception, bind, send,
    raise_for_status, print, emit, sleep, raise, ret.
  destruct (net w (sent st) _) as [resp|e]; cbn.
  - destruct (is_retryable_status (status_code resp)); cbn.
    + destruct (delay <? 0); log_step.
    + destruct ((400 <=? status_code resp) && (status_code resp <? 600)); cbn.
      * destruct (i =? retries - 1); cbn; [log_step|].
        destruct (delay <? 0); log_step.
      * log_step.
  - destruct (is_RequestException e); [|log_step].
    destruct (i =? retries - 1); cbn; [log_step|].
    destruct (delay <? 0); log_step.
Qed.

(** A retryable failure that is not the last attempt ends the iteration
    with [continue]. *)
Lemma iterate_retry w url method payload retries i delay st :
  retryable_failure (net w (sent st) (build_request url method payload))
    = true ->
  i <> retries - 1 -> 0 <= delay ->
  exists st',
    iterate w url method payload retries i delay st
      = (Ok (Continue (delay * 2)), st').
Proof.
  intros Hf Hi Hd.
  unfold iterate, try_except, try_body, on_request_exception, bind, send,
    raise_for_status, print, emit, sleep, raise, ret.
  destruct (net w (sent st) _) as [resp|e]; cbn in Hf |- *.
  - rewrite Hf. cbn.
    destruct (Z.ltb_spec delay 0); [lia|]. cbn. eauto.
  - rewrite Hf.
    destruct (Z.eqb_spec i (retries - 1)); [contradiction|]. cbn.
    destruct (Z.ltb_spec delay 0); [lia|]. cbn. eauto.
Qed.

(** ** The whole loop *)

Section Loop.

Variables (w : env) (url method : string) (payload : option json)
          (retries : Z).


(** Every run of the loop issues the same request some number of times and
    sleeps a run of doubling delays. *)
Lemma fetch_loop_log n :
  forall i delay st r st',
    fetch_loop w url method payload retries n i delay st = (r, st') ->
    exists m k,
      sleeps (log st') = sleeps (log st) ++ doubling delay m /\
      requests (log st') = requests (log st) ++ repeat (build_request url method payload) k /\
      sent st' = (sent st + k)%nat /\
      (n <> O -> k <> O).
Proof.
  induction n as [|n IH]; intros i delay st r st'.
  - cbn. intros [= <- <-]. exists O, O. cbn.
    rewrite !app_nil_r. repeat split; auto.
  - rewrite fetch_loop_S.
    destruct (iterate w url method payload retries i delay st)
      as [[[resp|d]|e] st1] eqn:Hit;
      destruct (iterate_log _ _ _ _ _ _ _ _ _ _ Hit)
        as (Hsent & Hreq & Hsl & Hcont).
    + intros [= <- <-].
      destruct Hsl as [Hsl|Hsl]; [exists O | exists 1%nat]; exists 1%nat;
        rewrite Hsl, Hreq, Hsent; cbn; rewrite ?app_nil_r, ?Z.mul_1_r;
        repeat split; auto; lia.
    + destruct (Hcont d eq_refl) as [-> Hsl'].
      intros Hrest. destruct (IH _ _ _ _ _ Hrest) as (m & k & H1 & H2 & H3 & _).
      exists (S m), (S k).
      rewrite H1, H2, H3, Hsl', Hreq, Hsent, doubling_S, <- !app_assoc.
      cbn. repeat split; auto; lia.
    + intros [= <- <-].
      destruct Hsl as [Hsl|Hsl]; [exists O | exists 1%nat]; exists 1%nat;
        rewrite Hsl, Hreq, Hsent; cbn; rewrite ?app_nil_r, ?Z.mul_1_r;
        repeat split; auto; lia.
Qed.

(** [N] retryable failures in a row, each followed by another attempt, take
    the loop [N] iterations further, having slept the first [N] doubling
    delays. *)
Lemma fetch_loop_retries N :
  forall n i delay st,
    0 <= delay -> (N < n)%nat -> i + Z.of_nat n = retries ->
    (forall k, (k < N)%nat ->
       retryable_failure (net w (sent st + k) (build_request url method payload)) = true) ->
    exists st1,
      fetch_loop w url method payload retries n i delay st
        = fetch_loop w url method payload retries (n - N)%nat
            (i + Z.of_nat N) (delay * 2 ^ Z.of_nat N) st1 /\
      sleeps (log st1) = sleeps (log st) ++ doubling delay N /\
      sent st1 = (sent st + N)%nat.
Proof.
  induction N as [|N IH]; intros n i delay st Hd Hn Hi Hfail.
  - exists st. cbn. rewrite Nat.sub_0_r, Z.add_0_r, Z.mul_1_r, app_nil_r.
    rewrite Nat.add_0_r. auto.
  - destruct n as [|n]; [lia|].
    rewrite fetch_loop_S.
    destruct (iterate_retry w url method payload retries i delay st)
      as [st0 Hit]; [ | lia | lia | ].
    { specialize (Hfail O). rewrite Nat.add_0_r in Hfail. apply Hfail. lia. }
    rewrite Hit.
    destruct (iterate_log _ _ _ _ _ _ _ _ _ _ Hit) as (Hsent & _ & _ & Hcont).
    destruct (Hcont _ eq_refl) as [_ Hsl].
    destruct (IH n (i + 1) (delay * 2) st0) as (st1 & Heq & Hsl1 & Hsent1);
      [lia | lia | lia | | ].
    { intros k Hk. rewrite Hsent.
      replace (S (sent st) + k)%nat with (sent st + S k)%nat by lia.
      apply Hfail. lia. }
    exists st1. rewrite Heq, Hsl1, Hsl, Hsent1, Hsent, doubling_S.
    rewrite <- app_assoc. cbn [app].
    rewrite Nat2Z.inj_succ, Z.pow_succ_r by lia.
    repeat split; try lia.
    f_equal; try lia. 
Qed.

End Loop.

Lemma skipn_prefix {A} (l1 l2 : list A) :
  skipn (List.length l1) (l1 ++ l2) = l2.
Proof. induction l1; cbn; auto. Qed.

(** C5: in [fetch_with_backoff], when the first [N] attempts all fail in a
    retryable way (status 429 or 5xx, or a request exception) and each is
    followed by a retry ([N < retries]), the delay slept before the [k]-th
    retry is [delay * 2^(k-1)], for every [k] from 1 to [N]: the first wait
    is the initial delay and each later one doubles the one before. *)
Theorem backoff_delay_doubles
        (w : env) (url method : string) (payload : option json)
        (retries delay : Z) (st : state) (N : nat) :
  0 <= delay ->
  Z.of_nat N < retries ->
  (forall k, (k < N)%nat ->
     retryable_failure
       (net w (sent st + k) (build_request url method payload)) = true) ->
  forall k, (1 <= k <= N)%nat ->
    nth_error
      (new_sleeps st
         (snd (fetch_with_backoff w url method payload retries delay st)))
      (k - 1)
    = Some (delay * 2 ^ (Z.of_nat k - 1)).
Proof.
  intros Hd HN Hfail k Hk.
  unfold fetch_with_backoff.
  destruct (fetch_loop_retries w url method payload retries N
              (Z.to_nat retries) 0 delay st)
    as (st1 & Heq & Hsl & _); auto; try lia.
  rewrite Heq.
  destruct (fetch_loop w url method payload retries
              (Z.to_nat retries - N) (0 + Z.of_nat N)
              (delay * 2 ^ Z.of_nat N) st1) as [r st'] eqn:Hrest.
  destruct (fetch_loop_log _ _ _ _ _ _ _ _ _ _ _ Hrest)
    as (m & _ & Hsl' & _).
  cbn [snd]. unfold new_sleeps.
  rewrite Hsl', Hsl, <- app_assoc, skipn_prefix.
  rewrite nth_error_app1 by (rewrite doubling_length; lia).
  rewrite doubling_nth by lia.
  do 3 f_equal. lia.
Qed.

Lemma backoff_delay_doubles_witness :
  nth_error
    (new_sleeps initial
       (snd (fetch_with_backoff flaky_env "u" "GET" None 3 2 initial)))
    (2 - 1)
  = Some (2 * 2 ^ (Z.of_nat 2 - 1)).
Proof.
  apply (backoff_delay_doubles flaky_env "u" "GET" None 3 2 initial 2).
  - lia.
  - cbn. lia.
  - intros k Hk.
    destruct k as [|[|k]]; [reflexivity | reflexivity | lia].
  - lia.
Defined.

(** ** Client errors *)

(** A response with a 4xx status other than 429 is answered like a
    transport failure whenever an attempt is left: the loop sleeps the
    current delay and sends the request again. *)
Lemma client_error_is_retried
      (w : env) (url method : string) (payload : option json)
      (retries delay : Z) (st : state) (r : response) :
  net w (sent st) (build_request url method payload) = Responded r ->
  400 <= status_code r < 500 -> status_code r <> 429 ->
  2 <= retries -> 0 <= delay ->
  let st' := snd (fetch_with_backoff w url method payload retries delay st) in
  exists later k,
    new_sleeps st st' = delay :: later /\
    new_requests st st' = repeat (build_request url method payload) (2 + k).
Proof.
  intros Hnet Hs H429 Hr Hd. unfold fetch_with_backoff.
  destruct (Z.to_nat retries) as [|[|n]] eqn:Hn; try lia.
  rewrite fetch_loop_S.
  assert (Hit : exists st1,
             iterate w url method payload retries 0 delay st
               = (Ok (Continue (delay * 2)), st1)).
  { unfold iterate, try_except, try_body, on_request_exception, bind, send,
      raise_for_status, print, emit, sleep, raise, ret.
    replace (0 =? retries - 1) with false by lia.
    replace (delay <? 0) with false by lia.
    rewrite Hnet. cbn.
    replace (is_retryable_status (status_code r)) with false
      by (unfold is_retryable_status; lia).
    replace ((400 <=? status_code r) && (status_code r <? 600)) with true
      by lia.
    cbn. eauto. }
  destruct Hit as [st1 Hit]. rewrite Hit.
  destruct (iterate_log _ _ _ _ _ _ _ _ _ _ Hit) as (_ & Hreq & _ & Hcont).
  destruct (Hcont _ eq_refl) as [_ Hsl].
  destruct (fetch_loop w url method payload retries (S n) (0 + 1)
              (delay * 2) st1) as [res st'] eqn:Hrest.
  destruct (fetch_loop_log _ _ _ _ _ _ _ _ _ _ _ Hrest)
    as (m & k & Hsl' & Hreq' & _ & Hk).
  cbn [snd]. unfold new_sleeps, new_requests.
  rewrite Hsl', Hsl, Hreq', Hreq, <- !app_assoc, !skipn_prefix.
  destruct k as [|k]; [now destruct Hk|].
  exists (doubling (delay * 2) m), k. split; reflexivity.
Qed.

(** C1: three consecutive 404 responses to one call with the default
    [retries=3, delay=2]: the call sends the request three times and sleeps
    2 and then 4 seconds before it raises the [HTTPError]. *)
Theorem not_found_is_retried :
  fetch_with_backoff not_found_env "u" "GET" None 3 2 initial =
  (Raise (HTTPError 404),
   mkState 3
     [EvRequest (Get "u" headers); EvSleep 2;
      EvRequest (Get "u" headers); EvSleep 4;
      EvRequest (Get "u" headers);
      EvPrint (MsgFetchFailed (HTTPError 404))]).
Proof. reflexivity. Qed.

(** With a single attempt allowed, the 404 does fail the call at once. *)
Lemma not_found_single_attempt :
  fetch_with_backoff not_found_env "u" "GET" None 1 2 initial =
  (Raise (HTTPError 404),
   mkState 1
     [EvRequest (Get "u" headers);
      EvPrint (MsgFetchFailed (HTTPError 404))]).
Proof. reflexivity. Qed.

(** ** The method argument *)

Lemma lower_not_upper_range a b :
  PyStr.is_lower_char a = true -> PyStr.is_lower_char b = false -> a <> b.
Proof. intros Ha Hb ->. congruence. Qed.

Lemma upper_char_same_letter a b :
  PyStr.is_lower_char b = false ->
  Ascii.eqb (PyStr.upper_char a) b = PyStr.same_letter a b.
Proof.
  intros Hb. unfold PyStr.upper_char, PyStr.same_letter.
  rewrite Hb. cbn [andb]. rewrite orb_false_r.
  destruct (PyStr.is_lower_char a) eqn:Ha; cbn [andb].
  - pose proof (lower_not_upper_range a b Ha Hb) as Hne.
    destruct (Ascii.eqb_spec a b) as [|_]; [contradiction|]. cbn [orb].
    unfold PyStr.is_lower_char in Ha.
    apply andb_true_iff in Ha as [Ha1 Ha2].
    apply Nat.leb_le in Ha1, Ha2.
    destruct (Nat.eqb_spec (nat_of_ascii a) (nat_of_ascii b + 32)) as [E|E].
    + apply Ascii.eqb_eq. rewrite E, Nat.add_sub. apply ascii_nat_embedding.
    + destruct (Ascii.eqb_spec (ascii_of_nat (nat_of_ascii a - 32)) b)
        as [E'|]; [|reflexivity].
      exfalso. apply E. rewrite <- E'.
      rewrite nat_ascii_embedding by lia. lia.
  - now rewrite orb_false_r.
Qed.

Lemma upper_eq_nocase s :
  forall t, no_lower t = true ->
    String.eqb (PyStr.upper s) t = PyStr.eq_nocase s t.
Proof.
  induction s as [|a s IH]; intros [|b t]; cbn; auto.
  intros H. apply andb_true_iff in H as [Hb Ht].
  apply negb_true_iff in Hb.
  rewrite upper_char_same_letter by exact Hb.
  destruct (PyStr.same_letter a b); cbn; auto.
Qed.

(** C9: a call of [fetch_with_backoff] that makes an attempt sends one
    request, as often as it tries: a POST with the payload when the method
    argument equals ['POST'] up to case, a GET for every other method
    string. *)
Theorem method_selects_request
        (w : env) (url method : string) (payload : option json)
        (retries delay : Z) (st : state) :
  PyStr.is_ascii method = true ->
  0 < retries ->
  exists k,
    k <> O /\
    new_requests st
      (snd (fetch_with_backoff w url method payload retries delay st))
    = repeat (if PyStr.eq_nocase method "POST"
              then Post url headers payload
              else Get url headers) k.
Proof.
  intros _ Hr. unfold fetch_with_backoff.
  destruct (fetch_loop w url method payload retries (Z.to_nat retries) 0
              delay st) as [res st'] eqn:Hrun.
  destruct (fetch_loop_log _ _ _ _ _ _ _ _ _ _ _ Hrun)
    as (_ & k & _ & Hreq & _ & Hk).
  exists k. split; [apply Hk; lia|].
  cbn [snd]. unfold new_requests. rewrite Hreq, skipn_prefix.
  unfold build_request. now rewrite upper_eq_nocase.
Qed.

Lemma method_selects_request_witness :
  exists k,
    k <> O /\
    new_requests initial
      (snd (fetch_with_backoff flaky_env "u" "DELETE" (Some JNull) 3 2
              initial))
    = repeat (if PyStr.eq_nocase "DELETE" "POST"
              then Post "u" headers (Some JNull)
              else Get "u" headers) k.
Proof.
  apply (method_selects_request flaky_env "u" "DELETE" (Some JNull) 3 2
           initial); [reflexivity | lia].
Defined.

Example put_is_sent_as_get :
  build_request "u" "PUT" (Some JNull) = Get "u" headers.
Proof. reflexivity. Qed.

Example post_in_mixed_case :
  build_request "u" "pOsT" (Some JNull) = Post "u" headers (Some JNull).
Proof. reflexivity. Qed.

(** ** The shape of the model's response *)

(** An absent key on the way to the text is reported with the function's own
    exception. *)
Lemma missing_key_is_reported (result : json) (st : state) :
  missing_key result ->
  content_part_of result st = (Raise invalid_structure, st).
Proof.
  intros H. unfold content_part_of, bind, lift.
  destruct H as [fields H1 | fields c rest H1 H2 | fields c rest ct H1 H2 H3
                 | fields c rest ct p rest' H1 H2 H3 H4];
    cbn; rewrite ?H1; cbn; rewrite ?H2; cbn; rewrite ?H3; cbn;
    rewrite ?H4; reflexivity.
Qed.

(** An empty list under [candidates] or [parts] is not: indexing it raises
    [IndexError]. *)
Lemma empty_list_index_error (st : state) :
  content_part_of empty_candidates st = (Raise IndexError, st) /\
  content_part_of empty_parts st = (Raise IndexError, st).
Proof. split; reflexivity. Qed.

(** C10: the model answers with the body [{"candidates": []}]:
    [call_gemini_api] raises [IndexError], not its own exception for an
    invalid response structure. *)
Theorem empty_candidates_index_error :
  fst (call_gemini_api (answering empty_candidates) "prompt" None None None
         initial)
  = Raise IndexError.
Proof. reflexivity. Qed.

Lemma empty_parts_index_error :
  fst (call_gemini_api (answering empty_parts) "prompt" None None None
         initial)
  = Raise IndexError.
Proof. reflexivity. Qed.

Example absent_candidates_reported :
  fst (call_gemini_api (answering (JObj [])) "prompt" None None None initial)
  = Raise invalid_structure.
Proof. reflexivity. Qed.

(** ** The news fetch *)

(** C3 (as amended): [fetch_news_sentiment] never raises; when anything
    inside its [try] raises, it prints the warning and returns the fixed
    string "News sentiment could not be retrieved.". *)
Theorem news_failure_is_swallowed
        (w : env) (crypto_name : string) (st : state) :
  exists v st',
    fetch_news_sentiment w crypto_name st = (Ok v, st') /\
    forall e st1,
      news_body w crypto_name (news_start crypto_name st) = (Raise e, st1) ->
      v = JStr "News sentiment could not be retrieved." /\
      log st' = log st1 ++ [EvPrint (MsgNewsWarning e)] /\
      sent st' = sent st1.
Proof.
  unfold fetch_news_sentiment, news_start, bind, try_except.
  cbn [print emit snd].
  destruct (news_body w crypto_name _) as [[v|e] st1].
  - exists v, st1. split; [reflexivity|]. intros e st2 [=].
  - cbn. eexists _, _. split; [reflexivity|].
    intros e' st2 [= -> ->]. cbn. auto.
Qed.

Lemma news_failure_is_swallowed_witness :
  exists v st',
    fetch_news_sentiment no_key_env "Bitcoin" initial = (Ok v, st') /\
    v = JStr "News sentiment could not be retrieved." /\
    log st' =
      [EvPrint (MsgFetchingNews "Bitcoin"); EvPrint (MsgNewsWarning ValueError)].
Proof.
  destruct (news_failure_is_swallowed no_key_env "Bitcoin" initial)
    as (v & st' & Hrun & Hfail).
  destruct (Hfail ValueError (news_start "Bitcoin" initial) eq_refl)
    as (Hv & Hlog & _).
  exists v, st'. repeat split; assumption.
Defined.

(** The string returned on a failure is not "sentiment unavailable". *)
Lemma news_fallback_is_another_string :
  fst (news_body no_key_env "Bitcoin" (news_start "Bitcoin" initial))
    = Raise ValueError /\
  fst (fetch_news_sentiment no_key_env "Bitcoin" initial)
    <> Ok (JStr "sentiment unavailable").
Proof. split; [reflexivity | discriminate]. Qed.

(** ** Computations that print no report line *)

Lemma quiet_ret {A} (a : A) : quiet (ret a).
Proof. intros st r st' [= <- <-]. reflexivity. Qed.

Lemma quiet_raise {A} (e : exn) : quiet (@raise A e).
Proof. intros st r st' [= <- <-]. reflexivity. Qed.

Lemma quiet_lift {A} (x : result A) : quiet (lift x).
Proof. intros st r st' [= <- <-]. reflexivity. Qed.

Lemma quiet_bind {A B} (m : M A) (k : A -> M B) :
  quiet m -> (forall a, quiet (k a)) -> quiet (bind m k).
Proof.
  intros Hm Hk st r st'. unfold bind.
  destruct (m st) as [[a|e] st1] eqn:E.
  - intros H. rewrite (Hk _ _ _ _ H). eapply Hm; eauto.
  - intros [= <- <-]. eapply Hm; eauto.
Qed.

Lemma quiet_try {A} (m : M A) caught (h : exn -> M A) :
  quiet m -> (forall e, quiet (h e)) -> quiet (try_except m caught h).
Proof.
  intros Hm Hh st r st'. unfold try_except.
  destruct (m st) as [[a|e] st1] eqn:E.
  - intros [= <- <-]. eapply Hm; eauto.
  - destruct (caught e).
    + intros H. rewrite (Hh _ _ _ _ H). eapply Hm; eauto.
    + intros [= <- <-]. eapply Hm; eauto.
Qed.

Lemma quiet_print (m : message) :
  is_report_message m = false -> quiet (print m).
Proof.
  intros H st r st' [= <- <-]. cbn.
  rewrite report_events_app. cbn. rewrite H. apply app_nil_r.
Qed.

Lemma quiet_sleep (d : Z) : quiet (sleep d).
Proof.
  unfold sleep. destruct (d <? 0); [apply quiet_raise|].
  intros st r st' [= <- <-]. cbn.
  rewrite report_events_app. apply app_nil_r.
Qed.

Lemma quiet_send (w : env) (req : request) : quiet (send w req).
Proof.
  intros st r st'. unfold send.
  destruct (net w (sent st) req); intros [= <- <-]; cbn;
    rewrite report_events_app; apply app_nil_r.
Qed.

Lemma quiet_raise_for_status (r : response) : quiet (raise_for_status r).
Proof.
  unfold raise_for_status.
  destruct ((400 <=? status_code r) && (status_code r <? 600));
    [apply quiet_raise | apply quiet_ret].
Qed.

Create HintDb quiet.
#[local] Hint Resolve quiet_ret quiet_raise quiet_lift quiet_sleep quiet_send
  quiet_raise_for_status : quiet.

Ltac quiet_step :=
  first
    [ solve [auto with quiet]
    | apply quiet_print; reflexivity
    | apply quiet_bind; [|intros ?]
    | apply quiet_try; [|intros ?]
    | match goal with
      | |- quiet (if ?b then _ else _) => destruct b
      | |- quiet (match ?x with _ => _ end) => destruct x
      end ].

Ltac quiet_tac := repeat quiet_step.

Lemma quiet_fetch_loop w url method payload retries n :
  forall i delay,
    quiet (fetch_loop w url method payload retries n i delay).
Proof.
  induction n as [|n IH]; intros i delay; cbn [fetch_loop].
  - apply quiet_raise.
  - apply quiet_bind.
    + unfold try_body, on_request_exception. quiet_tac.
    + intros [r|d]; [apply quiet_ret | apply IH].
Qed.

Lemma quiet_fetch_with_backoff w url method payload retries delay :
  quiet (fetch_with_backoff w url method payload retries delay).
Proof. apply quiet_fetch_loop. Qed.

#[local] Hint Resolve quiet_fetch_with_backoff : quiet.

Lemma quiet_call_gemini_api w prompt sys tools sch :
  quiet (call_gemini_api w prompt sys tools sch).
Proof.
  unfold call_gemini_api, response_json, content_part_of.
  destruct (API_KEY w) as [[|c key]|]; quiet_tac.
Qed.

#[local] Hint Resolve quiet_call_gemini_api : quiet.

Lemma quiet_fetch_market_data w crypto_id :
  quiet (fetch_market_data w crypto_id).
Proof.
  unfold fetch_market_data, market_body, fetch_default, response_json,
    indicators.
  quiet_tac.
Qed.

Lemma quiet_fetch_news_sentiment w crypto_name :
  quiet (fetch_news_sentiment w crypto_name).
Proof. unfold fetch_news_sentiment, news_body. quiet_tac. Qed.

(** ** A model answer that is not JSON *)

Section InvalidJson.

Variable json_loads : string -> option json.
Variable format_2f : fval -> string.
Variable py_str : json -> string.

(** Once the model's response is in, a text that does not decode makes
    [get_ai_analysis] print its two lines and raise the decoder's
    exception. *)
Lemma parse_report_invalid (part : json) (text : string) (st : state) :
  Py.getitem part "text" = Ok (JStr text) ->
  json_loads text = None ->
  exists raw,
    parse_report json_loads part st =
    (Raise JSONDecodeError,
     mkState (sent st)
             ((log st ++ [EvPrint MsgInvalidJson])
                ++ [EvPrint (MsgRawResponse raw)])).
Proof.
  intros Hget Hbad.
  destruct part as [| | | | |fields]; try discriminate.
  unfold parse_report, try_except, bind, lift. rewrite Hget.
  cbn [loads]. rewrite Hbad. cbn.
  cbn in Hget. destruct (Py.assoc "text" fields) as [v|]; [|discriminate].
  eexists. reflexivity.
Qed.

(** When the analysis step raises, the run ends with the error line and
    without any line of the report. *)
Lemma run_without_report (w : env) (st : state) (crypto_name : string)
      (t : tech_data) (news : json) (st2 : state) (e : exn) (st4 : state) :
  reaches_analysis w st crypto_name t news st2 ->
  get_ai_analysis json_loads format_2f py_str w crypto_name t news st2
    = (Raise e, st4) ->
  report_events (log st4) = report_events (log st2) ->
  exists st5,
    run_analysis json_loads format_2f py_str w st = (Ok tt, st5) /\
    log st5 = log st4 ++ [EvPrint (MsgRunError e)] /\
    sent st5 = sent st4 /\
    report_events (log st5) = report_events (log st).
Proof.
  intros (Hin & Hname & st1 & Hmarket & Hnews) Hfail Hq.
  unfold run_analysis, run_body, try_except.
  rewrite Hin. cbn [negb].
  destruct (resolve _) as [coin_id name] eqn:Hres. cbn [fst snd] in *.
  subst name.
  unfold bind at 1.
  destruct (print (MsgAnalyzing crypto_name) st) as [[[]|e0] st0] eqn:Hp;
    [|discriminate].
  cbn [snd] in Hmarket.
  unfold bind at 1. rewrite Hmarket.
  unfold bind at 1. rewrite Hnews.
  unfold bind at 1. rewrite Hfail.
  eexists. split; [reflexivity|]. cbn.
  repeat split.
  rewrite report_events_app, Hq. cbn. rewrite app_nil_r.
  rewrite (quiet_fetch_news_sentiment _ _ _ _ _ Hnews).
  rewrite (quiet_fetch_market_data _ _ _ _ _ Hmarket).
  injection Hp as <-. cbn. rewrite report_events_app. apply app_nil_r.
Qed.

(** C7 (as amended): the run has reached the analysis step and the model's
    response carries a text that [json.loads] rejects with
    [JSONDecodeError].  Then [get_ai_analysis] raises
    [JSONDecodeError], which is not one of the exceptions the HTTP helper
    retries on; no request is sent after that response; and the run ends
    without printing any line of the report. *)
Theorem invalid_json_is_terminal
        (w : env) (st : state) (crypto_name : string) (t : tech_data)
        (news : json) (st2 : state) (prompt : string) (part : json)
        (st3 : state) (text : string) :
  reaches_analysis w st crypto_name t news st2 ->
  user_prompt format_2f py_str crypto_name t news = Ok prompt ->
  call_gemini_api w prompt (Some system_prompt) None (Some schema)
                  (snd (print MsgConsulting st2)) = (Ok part, st3) ->
  Py.getitem part "text" = Ok (JStr text) ->
  json_loads text = None ->
  exists st4 st5,
    get_ai_analysis json_loads format_2f py_str w crypto_name t news st2
      = (Raise JSONDecodeError, st4) /\
    is_RequestException JSONDecodeError = false /\
    requests (log st4) = requests (log st3) /\
    sent st4 = sent st3 /\
    run_analysis json_loads format_2f py_str w st = (Ok tt, st5) /\
    sent st5 = sent st3 /\
    report_events (log st5) = report_events (log st).
Proof.
  intros Hreach Hprompt Hcall Hget Hbad.
  destruct (parse_report_invalid part text st3 Hget Hbad) as [raw Hparse].
  assert (Hrun :
    get_ai_analysis json_loads format_2f py_str w crypto_name t news st2 =
    (Raise JSONDecodeError,
     mkState (sent st3)
             ((log st3 ++ [EvPrint MsgInvalidJson])
                ++ [EvPrint (MsgRawResponse raw)]))).
  { unfold get_ai_analysis.
    unfold bind at 1.
    destruct (print MsgConsulting st2) as [[[]|e0] st0] eqn:Hp;
      [|discriminate].
    cbn [snd] in Hcall.
    unfold bind at 1, lift. rewrite Hprompt.
    unfold bind, try_except. rewrite Hcall. exact Hparse. }
  destruct (run_without_report w st crypto_name t news st2 _ _ Hreach Hrun)
    as (st5 & H5 & _ & Hsent & Hrep).
  { cbn. rewrite !report_events_app. cbn. rewrite !app_nil_r.
    rewrite (quiet_call_gemini_api _ _ _ _ _ _ _ _ Hcall).
    cbn. rewrite report_events_app. apply app_nil_r. }
  eexists _, st5. split; [exact Hrun|].
  cbn in *. rewrite !requests_app. cbn. rewrite !app_nil_r.
  repeat split; auto.
Qed.

End InvalidJson.

Lemma invalid_json_is_terminal_witness :
  exists st4 st5,
    get_ai_analysis literal_loads fixed_2f fixed_str scripted_env "Bitcoin"
      scripted_tech (JStr "Mostly positive.") scripted_st2
      = (Raise JSONDecodeError, st4) /\
    is_RequestException JSONDecodeError = false /\
    requests (log st4) = requests (log (snd scripted_call)) /\
    sent st4 = sent (snd scripted_call) /\
    run_analysis literal_loads fixed_2f fixed_str scripted_env initial
      = (Ok tt, st5) /\
    sent st5 = sent (snd scripted_call) /\
    report_events (log st5) = report_events (log initial).
Proof.
  apply (invalid_json_is_terminal literal_loads fixed_2f fixed_str
           scripted_env initial "Bitcoin" scripted_tech
           (JStr "Mostly positive.") scripted_st2 scripted_prompt
           scripted_part (snd scripted_call) "Sure! Here is my analysis").
  - split; [reflexivity|]. split; [reflexivity|].
    exists (snd scripted_market). split; vm_compute; reflexivity.
  - reflexivity.
  - vm_compute. reflexivity.
  - reflexivity.
  - reflexivity.
Defined.

Example scripted_run_prints_no_report :
  report_events
    (log (snd (run_analysis literal_loads fixed_2f fixed_str scripted_env
                 initial))) = [] /\
  sent (snd (run_analysis literal_loads fixed_2f fixed_str scripted_env
               initial)) = 4%nat.
Proof. split; vm_compute; reflexivity. Qed.

(** ** Too short a history, and errors of the provider *)

Lemma observed_all_nan {A} (f : A -> fval) (l : list A) :
  (forall x, In x l -> f x = NaN) -> Pandas.observed (map f l) = [].
Proof.
  induction l as [|a l IH]; intros H; cbn; [reflexivity|].
  rewrite (H a) by (left; reflexivity). cbn.
  apply IH. intros x Hx. apply H. now right.
Qed.

(** A series shorter than the window has no rolling mean at all. *)
Lemma rolling_mean_short (w : nat) (s : Pandas.series) :
  (List.length s < w)%nat ->
  Pandas.observed (Pandas.rolling_mean w s) = [].
Proof.
  intros H. unfold Pandas.rolling_mean. apply observed_all_nan.
  intros i Hi. apply in_seq in Hi.
  destruct (Nat.ltb_spec (i + 1) w); [reflexivity | lia].
Qed.

Lemma latest_sma_short (close : Pandas.series) :
  (List.length close < 20)%nat ->
  Pandas.latest_sma close = Raise IndexError.
Proof.
  intros H. unfold Pandas.latest_sma, Pandas.last_valid, Pandas.SMA_20.
  now rewrite rolling_mean_short.
Qed.

Lemma indicators_short crypto_id history price_data prices df st :
  Py.getitem history "prices" = Ok prices ->
  Pandas.DataFrame prices = Ok df ->
  (List.length df < 20)%nat ->
  exists e, indicators crypto_id history price_data st = (Raise e, st) /\
            (Pandas.to_datetime (map fst df) = Ok tt -> e = IndexError).
Proof.
  intros Hp Hdf Hlen. unfold indicators, bind, lift.
  rewrite Hp, Hdf.
  destruct (Pandas.to_datetime (map fst df)) as [[]|e].
  - rewrite latest_sma_short by now rewrite length_map.
    eauto.
  - exists e. split; [reflexivity | discriminate].
Qed.

(** Whatever the body of [fetch_market_data] raises, the function raises. *)
Lemma market_error_propagates w crypto_id st e st1 :
  market_body w crypto_id (market_start crypto_id st) = (Raise e, st1) ->
  fetch_market_data w crypto_id st
    = (Raise e, mkState (sent st1) (log st1 ++ [EvPrint (MsgMarketError e)])).
Proof.
  intros H. unfold fetch_market_data, bind, try_except.
  cbn [print emit]. unfold market_start in H. cbn [print emit snd] in H.
  rewrite H. reflexivity.
Qed.

(** C8: [fetch_market_data] raises when the price history it received has
    fewer than 20 rows (so also when it has fewer than 15), and an error the
    HTTP client raises for either request, as it does for an asset id the
    provider rejects, is raised to the caller unchanged. *)
Theorem market_data_failures (w : env) (crypto_id : string) (st : state) :
  (forall hr st1 history prices df,
      history_fetch w crypto_id st = (Ok hr, st1) ->
      json_body hr = Some history ->
      Py.getitem history "prices" = Ok prices ->
      Pandas.DataFrame prices = Ok df ->
      (List.length df < 20 \/ List.length df < 15)%nat ->
      exists e st', fetch_market_data w crypto_id st = (Raise e, st')) /\
  (forall e st1,
      history_fetch w crypto_id st = (Raise e, st1) ->
      exists st', fetch_market_data w crypto_id st = (Raise e, st')) /\
  (forall hr st1 history e st2,
      history_fetch w crypto_id st = (Ok hr, st1) ->
      json_body hr = Some history ->
      fetch_default w (price_url crypto_id) st1 = (Raise e, st2) ->
      exists st', fetch_market_data w crypto_id st = (Raise e, st')).
Proof.
  unfold history_fetch. repeat split.
  - intros hr st1 history prices df Hh Hj Hp Hdf Hlen.
    assert (Hbody : exists e st2,
               market_body w crypto_id (market_start crypto_id st)
                 = (Raise e, st2)).
    { unfold market_body, bind. rewrite Hh.
      unfold response_json at 1. rewrite Hj. cbn [ret].
      destruct (fetch_default w (price_url crypto_id) st1)
        as [[pr|e] st2]; [|eauto].
      unfold response_json.
      destruct (json_body pr) as [pd|]; cbn [ret raise]; [|eauto].
      destruct (indicators_short crypto_id history pd prices df st2 Hp Hdf)
        as (e & He & _); [lia | eauto]. }
    destruct Hbody as (e & st2 & Hbody).
    rewrite (market_error_propagates _ _ _ _ _ Hbody). eauto.
  - intros e st1 Hh.
    erewrite market_error_propagates; [eauto|].
    unfold market_body, bind. now rewrite Hh.
  - intros hr st1 history e st2 Hh Hj Hp.
    erewrite market_error_propagates; [eauto|].
    unfold market_body, bind. rewrite Hh.
    unfold response_json. rewrite Hj. cbn [ret]. now rewrite Hp.
Qed.

Lemma market_data_failures_witness :
  (exists e st',
      fetch_market_data short_env "bitcoin" initial = (Raise e, st')) /\
  (exists st',
      fetch_market_data not_found_env "nocoin" initial
        = (Raise (HTTPError 404), st')).
Proof.
  split.
  - destruct (market_data_failures short_env "bitcoin" initial)
      as (H & _ & _).
    eapply H; try reflexivity. left. cbn. lia.
  - destruct (market_data_failures not_found_env "nocoin" initial)
      as (_ & H & _).
    eapply H. reflexivity.
Defined.

Example short_history_raises :
  fst (fetch_market_data short_env "bitcoin" initial) = Raise IndexError.
Proof. reflexivity. Qed.

(** ** Series given by their entries *)

Lemma tab_length F n : List.length (tab F n) = n.
Proof. unfold tab. now rewrite length_map, length_seq. Qed.

Lemma tab_at F n i : (i < n)%nat -> Pandas.at_ (tab F n) i = F i.
Proof.
  intros H. unfold Pandas.at_, tab.
  rewrite (nth_indep _ NaN (F O)) by (rewrite length_map, length_seq; lia).
  rewrite map_nth, seq_nth by lia. reflexivity.
Qed.

Lemma tab_ext F G n :
  (forall i, (i < n)%nat -> F i = G i) -> tab F n = tab G n.
Proof.
  intros H. unfold tab. apply map_ext_in. intros i Hi.
  apply in_seq in Hi. apply H. lia.
Qed.


Lemma nth_seq_map {A} (l : list A) (d : A) :
  map (fun i => nth i l d) (seq 0 (List.length l)) = l.
Proof.
  induction l as [|a l IH]; [reflexivity|].
  cbn [List.length seq map nth]. f_equal.
  rewrite <- seq_shift, map_map. exact IH.
Qed.

(** The close column of a frame built from rational closes. *)
Lemma closes_tab (closes : list Q) :
  map Fin closes = tab (fun i => Fin (nth i closes 0%Q)) (List.length closes).
Proof.
  unfold tab.
  rewrite <- (nth_seq_map closes 0%Q) at 1. now rewrite map_map.
Qed.

Lemma diff_tab F n :
  Pandas.diff (tab F n)
  = tab (fun i => match i with
                  | O => NaN
                  | S j => Float.fsub (F i) (F j)
                  end) n.
Proof.
  unfold Pandas.diff. rewrite tab_length. apply tab_ext.
  intros [|j] Hi; [reflexivity|].
  rewrite !tab_at by lia. reflexivity.
Qed.

Lemma where_tab F n cond other :
  Pandas.where_ (tab F n) cond other
  = tab (fun i => if cond (F i) then F i else other) n.
Proof. unfold Pandas.where_, tab. now rewrite map_map. Qed.

Lemma neg_tab F n :
  Pandas.neg (tab F n) = tab (fun i => Float.fneg (F i)) n.
Proof. unfold Pandas.neg, tab. now rewrite map_map. Qed.

Lemma map_tab (h : fval -> fval) F n :
  map h (tab F n) = tab (fun i => h (F i)) n.
Proof. unfold tab. now rewrite map_map. Qed.

Lemma div_map_seq F G a n :
  Pandas.div (map F (seq a n)) (map G (seq a n))
  = map (fun i => Float.fdiv (F i) (G i)) (seq a n).
Proof.
  revert a. induction n as [|n IH]; intros a; cbn; [reflexivity|].
  now rewrite IH.
Qed.

Lemma div_tab F G n :
  Pandas.div (tab F n) (tab G n) = tab (fun i => Float.fdiv (F i) (G i)) n.
Proof. apply div_map_seq. Qed.

Lemma window_tab F n w i :
  (i < n)%nat -> (w <= i + 1)%nat ->
  Pandas.window (tab F n) w i = map F (seq (i + 1 - w) w).
Proof.
  intros Hi Hw. unfold Pandas.window. apply map_ext_in.
  intros j Hj. apply in_seq in Hj. apply tab_at. lia.
Qed.

Lemma observed_fin (l : list Q) :
  Pandas.observed (map Fin l) = map Fin l.
Proof.
  unfold Pandas.observed.
  induction l as [|a l IH]; cbn; [reflexivity|]. now rewrite IH.
Qed.

Lemma fsum_fin (l : list Q) : Pandas.fsum (map Fin l) = Fin (Qsum l).
Proof.
  induction l as [|a l IH]; cbn; [reflexivity|].
  unfold Pandas.fsum in IH. now rewrite IH.
Qed.

(** The rolling mean of a series of finite values, entry by entry. *)
Lemma rolling_mean_tab (h : nat -> Q) (w n : nat) :
  Pandas.rolling_mean w (tab (fun i => Fin (h i)) n)
  = tab (fun i =>
           if (i + 1 <? w)%nat then NaN
           else Float.fdiv (Fin (Qsum (map h (seq (i + 1 - w) w))))
                           (Fin (inject_Z (Z.of_nat w)))) n.
Proof.
  unfold Pandas.rolling_mean. rewrite tab_length. apply tab_ext.
  intros i Hi. destruct (Nat.ltb_spec (i + 1) w) as [|Hw]; [reflexivity|].
  rewrite window_tab by lia.
  rewrite <- (map_map h Fin), observed_fin, fsum_fin.
  rewrite !length_map, length_seq, Nat.ltb_irrefl. reflexivity.
Qed.

Lemma last_valid_snoc (s : Pandas.series) (x : fval) :
  Float.is_nan x = false -> Pandas.last_valid (s ++ [x]) = Ok x.
Proof.
  intros Hx. unfold Pandas.last_valid, Pandas.observed.
  rewrite filter_app. cbn. rewrite Hx. cbn.
  destruct (filter _ s) as [|y l]; cbn; [reflexivity|].
  now rewrite last_last.
Qed.

Lemma seq_entries {A} (l : list A) (d : A) (a k : nat) :
  (a + k <= List.length l)%nat ->
  map (fun j => nth j l d) (seq a k) = firstn k (skipn a l).
Proof.
  revert a l. induction k as [|k IH]; intros a l H; [reflexivity|].
  cbn [seq map]. rewrite IH by lia.
  clear IH. revert l H. induction a as [|a IHa]; intros l H.
  - destruct l as [|x l]; [cbn in H; lia|]. reflexivity.
  - destruct l as [|x l]; [cbn in H; lia|].
    cbn [nth skipn]. apply IHa. cbn in H. lia.
Qed.

(** ** The moving average *)

Lemma fdiv_by_count (a : Q) (w : nat) :
  w <> O ->
  Float.fdiv (Fin a) (Fin (inject_Z (Z.of_nat w)))
  = Fin (a / inject_Z (Z.of_nat w)).
Proof.
  intros Hw. unfold Float.fdiv.
  destruct (Qeq_bool (inject_Z (Z.of_nat w)) 0) eqn:E; [|reflexivity].
  apply Qeq_bool_iff in E. unfold Qeq in E. cbn in E. lia.
Qed.

Lemma trailing_length {A} (k i : nat) (l : list A) :
  (k <= i + 1)%nat -> (i < List.length l)%nat ->
  List.length (trailing k i l) = k.
Proof.
  intros Hk Hi. unfold trailing. rewrite length_firstn, length_skipn. lia.
Qed.

(** The column [SMA_20], entry by entry. *)
Lemma SMA_20_at (closes : list Q) (i : nat) :
  (19 <= i < List.length closes)%nat ->
  nth i (Pandas.SMA_20 (map Fin closes)) NaN
  = Fin (mean (trailing 20 i closes)).
Proof.
  intros Hi. unfold Pandas.SMA_20.
  rewrite closes_tab, rolling_mean_tab.
  fold (Pandas.at_ (tab (fun i0 : nat =>
     if (i0 + 1 <? 20)%nat then NaN
     else Float.fdiv
            (Fin (Qsum (map (fun i1 => nth i1 closes 0%Q)
                            (seq (i0 + 1 - 20) 20))))
            (Fin (inject_Z (Z.of_nat 20)))) (List.length closes)) i).
  rewrite tab_at by lia.
  destruct (Nat.ltb_spec (i + 1) 20); [lia|].
  rewrite fdiv_by_count by lia.
  rewrite seq_entries by lia.
  unfold mean. fold (trailing 20 i closes).
  rewrite trailing_length by lia. reflexivity.
Qed.

Lemma SMA_20_length (close : Pandas.series) :
  List.length (Pandas.SMA_20 close) = List.length close.
Proof.
  unfold Pandas.SMA_20, Pandas.rolling_mean.
  now rewrite length_map, length_seq.
Qed.

Lemma last_valid_last (s : Pandas.series) :
  s <> [] ->
  Float.is_nan (nth (List.length s - 1) s NaN) = false ->
  Pandas.last_valid s = Ok (nth (List.length s - 1) s NaN).
Proof.
  intros Hs. destruct (exists_last Hs) as (s' & x & ->).
  rewrite last_length. cbn [Nat.sub]. rewrite Nat.sub_0_r, nth_middle.
  apply last_valid_snoc.
Qed.



Example sma_of_one_to_twenty :
  Pandas.latest_sma (map Fin one_to_twenty) = Ok (Fin (210 # 20)).
Proof. reflexivity. Qed.

(** What [fetch_market_data] returns are the latest values of the two
    columns. *)
Lemma indicators_retains crypto_id history price_data st t st' :
  indicators crypto_id history price_data st = (Ok t, st') ->
  exists prices df,
    Py.getitem history "prices" = Ok prices /\
    Pandas.DataFrame prices = Ok df /\
    Pandas.latest_sma (map snd df) = Ok (latest_sma t) /\
    Pandas.latest_rsi (map snd df) = Ok (latest_rsi t).
Proof.
  unfold indicators, bind, lift.
  destruct (Py.getitem history "prices") as [prices|]; [|discriminate].
  destruct (Pandas.DataFrame prices) as [df|] eqn:Hdf; [|discriminate].
  destruct (Pandas.to_datetime _) as [[]|]; [|discriminate].
  destruct (Pandas.latest_sma _) as [sma|] eqn:Hsma; [|discriminate].
  destruct (Pandas.latest_rsi _) as [rsi|] eqn:Hrsi; [|discriminate].
  destruct (Py.getitem price_data crypto_id) as [by_id|]; [|discriminate].
  destruct (Py.getitem by_id "usd") as [usd|]; [|discriminate].
  intros [= <- <-]. cbn. exists prices, df. auto.
Qed.

(** ** The relative-strength index *)

Lemma Qlt_bool_iff (a b : Q) : Float.Qlt_bool a b = true <-> (a < b)%Q.
Proof.
  unfold Float.Qlt_bool. rewrite negb_true_iff.
  split.
  - intros H. apply Qnot_le_lt. intros Hle.
    apply Qle_bool_iff in Hle. congruence.
  - intros H. destruct (Qle_bool b a) eqn:E; [|reflexivity].
    apply Qle_bool_iff in E. exfalso. apply (Qlt_not_le _ _ H E).
Qed.

Lemma Qlt_bool_false (a b : Q) : Float.Qlt_bool a b = false <-> (b <= a)%Q.
Proof.
  unfold Float.Qlt_bool. rewrite negb_false_iff. apply Qle_bool_iff.
Qed.

Lemma Qeq_bool_false (a b : Q) : ~ (a == b)%Q -> Qeq_bool a b = false.
Proof.
  intros H. destruct (Qeq_bool a b) eqn:E; [|reflexivity].
  apply Qeq_bool_iff in E. contradiction.
Qed.

(** Boolean tests on rationals, as propositions. *)
Ltac qtests :=
  repeat match goal with
    | H : Qeq_bool _ _ = true |- _ => apply Qeq_bool_iff in H
    | H : Qeq_bool _ _ = false |- _ => apply Qeq_bool_neq in H
    | H : Float.Qlt_bool _ _ = true |- _ => apply Qlt_bool_iff in H
    | H : Float.Qlt_bool _ _ = false |- _ => apply Qlt_bool_false in H
    end.


Lemma feq_is_nan (x y : fval) :
  Float.feq x y -> Float.is_nan x = Float.is_nan y.
Proof. destruct x, y; cbn; tauto. Qed.






(** The index is undefined exactly when both averages are zero. *)
Lemma index_of_nan (a b : Q) :
  Float.is_nan (index_of (Fin a) (Fin b)) = true <-> (a == 0 /\ b == 0)%Q.
Proof.
  unfold index_of. cbn [Float.fdiv].
  destruct (Qeq_bool b 0) eqn:Eb.
  - destruct (Qeq_bool a 0) eqn:Ea.
    + qtests. cbn. tauto.
    + destruct (Float.Qlt_bool 0 a); qtests; cbn;
        (split; [discriminate | tauto]).
  - cbn [Float.fadd Float.fdiv].
    destruct (Qeq_bool (1 + a / b) 0); cbn; qtests;
      (split; [discriminate | tauto]).
Qed.



(** The column [RSI_14] of a frame built from rational closes. *)
Lemma RSI_14_tab (closes : list Q) :
  Pandas.RSI_14 (map Fin closes)
  = tab (code_rsi_at closes) (List.length closes).
Proof.
  unfold Pandas.RSI_14. rewrite closes_tab, diff_tab, !where_tab, neg_tab.
  set (n := List.length closes).
  rewrite (tab_ext _ (fun i => Fin (gain_term closes i)) n).
  2:{ intros [|k] _; [reflexivity|]. cbn.
      now destruct (Float.Qlt_bool 0 _). }
  rewrite (tab_ext (fun i => Float.fneg _)
                   (fun i => Fin (loss_term closes i)) n).
  2:{ intros [|k] _; [reflexivity|]. cbn.
      now destruct (Float.Qlt_bool _ 0). }
  rewrite !rolling_mean_tab, div_tab, map_tab. reflexivity.
Qed.

Lemma mean_14_early (term : nat -> Q) (i : nat) :
  (i < 13)%nat -> mean_14 term i = NaN.
Proof.
  intros H. unfold mean_14.
  destruct (Nat.ltb_spec (i + 1) 14); [reflexivity | lia].
Qed.

Lemma mean_14_late (term : nat -> Q) (i : nat) :
  (13 <= i)%nat ->
  mean_14 term i = Fin (Qsum (map term (seq (i - 13) 14)) / 14).
Proof.
  intros H. unfold mean_14.
  destruct (Nat.ltb_spec (i + 1) 14); [lia|].
  replace (i + 1 - 14)%nat with (i - 13)%nat by lia. reflexivity.
Qed.

Lemma code_rsi_early (closes : list Q) (i : nat) :
  (i < 13)%nat -> code_rsi_at closes i = NaN.
Proof.
  intros H. unfold code_rsi_at. now rewrite !mean_14_early.
Qed.


Lemma Qsum_cons (a : Q) (l : list Q) : Qsum (a :: l) = (a + Qsum l)%Q.
Proof. reflexivity. Qed.

Lemma Qsum_nonneg (f : nat -> Q) (l : list nat) :
  (forall j, In j l -> (0 <= f j)%Q) -> (0 <= Qsum (map f l))%Q.
Proof.
  induction l as [|a l IH]; intros H; cbn [map].
  - cbn. lra.
  - rewrite Qsum_cons.
    assert (0 <= f a)%Q by (apply H; now left).
    assert (0 <= Qsum (map f l))%Q
      by (apply IH; intros j Hj; apply H; now right).
    lra.
Qed.


Lemma Qsum_zero (f : nat -> Q) (l : list nat) :
  (forall j, In j l -> (f j == 0)%Q) -> (Qsum (map f l) == 0)%Q.
Proof.
  induction l as [|a l IH]; intros H; cbn [map]; [reflexivity|].
  rewrite Qsum_cons, (H a) by (now left). rewrite IH; [lra|].
  intros j Hj. apply H. now right.
Qed.




Lemma gain_term_nonneg (closes : list Q) (j : nat) :
  (0 <= gain_term closes j)%Q.
Proof.
  destruct j as [|k]; cbn; [lra|].
  destruct (Float.Qlt_bool 0 _) eqn:E; qtests; lra.
Qed.

Lemma loss_term_nonneg (closes : list Q) (j : nat) :
  (0 <= loss_term closes j)%Q.
Proof.
  destruct j as [|k]; cbn; [lra|].
  destruct (Float.Qlt_bool _ 0) eqn:E; qtests; lra.
Qed.


Lemma div14 (x : Q) : (x / 14 == x * (1 # 14))%Q.
Proof. reflexivity. Qed.





Lemma rising_is_increasing : strictly_increasing rising.
Proof.
  intros i Hi. cbn in Hi.
  do 14 (destruct i as [|i]; [reflexivity|]). lia.
Qed.


Example rsi_of_rising : Pandas.latest_rsi (map Fin rising) = Ok (Fin 100).
Proof. vm_compute. reflexivity. Qed.

(** ** The entry at position 13 *)



(** With 14 closes the column already holds a value at position 13, over
    13 real deltas and the replaced first one. *)
Example rsi_with_14_closes :
  Pandas.latest_rsi (map Fin (firstn 14 rising)) = Ok (Fin 100).
Proof. vm_compute. reflexivity. Qed.

(** ** What a successful [fetch_market_data] returns *)

(** The two indicators in the returned snapshot are the latest defined
    entries of the two columns of the frame built from the history. *)
Lemma fetch_market_data_retains (w : env) (crypto_id : string)
      (st : state) (t : tech_data) (st' : state) :
  fetch_market_data w crypto_id st = (Ok t, st') ->
  exists history prices df,
    Py.getitem history "prices" = Ok prices /\
    Pandas.DataFrame prices = Ok df /\
    Pandas.latest_sma (map snd df) = Ok (latest_sma t) /\
    Pandas.latest_rsi (map snd df) = Ok (latest_rsi t).
Proof.
  unfold fetch_market_data, bind, try_except. cbn [print emit].
  destruct (market_body w crypto_id _) as [[t0|e] st1] eqn:Hbody;
    [|discriminate].
  intros [= <- <-].
  unfold market_body, bind in Hbody.
  destruct (fetch_default w (history_url crypto_id) _) as [[hr|e] s1];
    [|discriminate].
  destruct (response_json hr s1) as [[history|e] s2]; [|discriminate].
  destruct (fetch_default w (price_url crypto_id) s2) as [[pr|e] s3];
    [|discriminate].
  destruct (response_json pr s3) as [[price_data|e] s4]; [|discriminate].
  destruct (indicators_retains _ _ _ _ _ _ Hbody)
    as (prices & df & H1 & H2 & H3 & H4).
  exists history, prices, df. auto.
Qed.

Example scripted_market_data :
  fst scripted_market =
  Ok (mkTech (JNum 50000) (Fin (210 # 20)) (Fin 100)).
Proof. vm_compute. reflexivity. Qed.

(* ================================================================== *)
(** * Further properties of [fetch_with_backoff] *)

(** The loop sends its one request at most once per iteration and never
    sleeps more often than it sends. *)
Lemma fetch_loop_bounds w url method payload retries n :
  forall i delay st r st',
    fetch_loop w url method payload retries n i delay st = (r, st') ->
    exists k m,
      requests (log st') =
        requests (log st) ++ repeat (build_request url method payload) k /\
      sleeps (log st') = sleeps (log st) ++ doubling delay m /\
      sent st' = (sent st + k)%nat /\
      (k <= n)%nat /\ (m <= k)%nat.
Proof.
  induction n as [|n IH]; intros i delay st r st'.
  - cbn. intros [= <- <-]. exists O, O. cbn.
    rewrite !app_nil_r. repeat split; auto.
  - rewrite fetch_loop_S.
    destruct (iterate w url method payload retries i delay st)
      as [[[resp|d]|e] st1] eqn:Hit;
      destruct (iterate_log _ _ _ _ _ _ _ _ _ _ Hit)
        as (Hsent & Hreq & Hsl & Hcont).
    + intros [= <- <-].
      destruct Hsl as [Hsl|Hsl]; [exists 1%nat, O | exists 1%nat, 1%nat];
        rewrite Hsl, Hreq, Hsent; cbn; rewrite ?app_nil_r, ?Z.mul_1_r;
        repeat split; auto; lia.
    + destruct (Hcont d eq_refl) as [-> Hsl'].
      intros Hrest.
      destruct (IH _ _ _ _ _ Hrest) as (k & m & H1 & H2 & H3 & H4 & H5).
      exists (S k), (S m).
      rewrite H1, H2, H3, Hsl', Hreq, Hsent, doubling_S, <- !app_assoc.
      cbn. repeat split; auto; lia.
    + intros [= <- <-].
      destruct Hsl as [Hsl|Hsl]; [exists 1%nat, O | exists 1%nat, 1%nat];
        rewrite Hsl, Hreq, Hsent; cbn; rewrite ?app_nil_r, ?Z.mul_1_r;
        repeat split; auto; lia.
Qed.

(** X1: whatever the provider does, one call of [fetch_with_backoff] sends
    the same request at most [retries] times (never when [retries <= 0])
    and sleeps at most once per request sent. *)
Theorem fetch_attempts_bounded
        (w : env) (url method : string) (payload : option json)
        (retries delay : Z) (st : state) :
  exists k,
    new_requests st
      (snd (fetch_with_backoff w url method payload retries delay st))
      = repeat (build_request url method payload) k /\
    Z.of_nat k <= Z.max 0 retries /\
    (List.length
       (new_sleeps st
          (snd (fetch_with_backoff w url method payload retries delay st)))
     <= k)%nat /\
    sent (snd (fetch_with_backoff w url method payload retries delay st))
      = (sent st + k)%nat.
Proof.
  unfold fetch_with_backoff.
  destruct (fetch_loop w url method payload retries (Z.to_nat retries) 0
              delay st) as [r st'] eqn:Hrun.
  destruct (fetch_loop_bounds _ _ _ _ _ _ _ _ _ _ _ Hrun)
    as (k & m & Hreq & Hsl & Hsent & Hk & Hm).
  exists k. cbn [snd]. unfold new_requests, new_sleeps.
  rewrite Hreq, Hsl, !skipn_prefix, doubling_length.
  repeat split; auto; lia.
Qed.

(** ** How one iteration ends *)

Lemma iterate_return w url method payload retries i delay st r :
  net w (sent st) (build_request url method payload) = Responded r ->
  acceptable_status (status_code r) = true ->
  iterate w url method payload retries i delay st
    = (Ok (Return r), after_request (build_request url method payload) st).
Proof.
  intros Hnet Hok. unfold acceptable_status in Hok.
  apply andb_true_iff in Hok as [H1 H2].
  apply negb_true_iff in H1, H2.
  unfold iterate, try_except, try_body, bind, send, raise_for_status.
  rewrite Hnet, H1, H2. reflexivity.
Qed.

Lemma iterate_foreign w url method payload retries i delay st e :
  net w (sent st) (build_request url method payload) = Failed e ->
  is_RequestException e = false ->
  iterate w url method payload retries i delay st
    = (Raise e, after_request (build_request url method payload) st).
Proof.
  intros Hnet He.
  unfold iterate, try_except, try_body, bind, send.
  rewrite Hnet, He. reflexivity.
Qed.

Lemma iterate_last_exception w url method payload retries delay st e :
  net w (sent st) (build_request url method payload) = Failed e ->
  is_RequestException e = true ->
  iterate w url method payload retries (retries - 1) delay st
    = (Raise e,
       mkState (S (sent st))
               ((log st ++ [EvRequest (build_request url method payload)])
                  ++ [EvPrint (MsgFetchFailed e)])).
Proof.
  intros Hnet He.
  unfold iterate, try_except, try_body, on_request_exception, bind, send,
    print, emit, raise.
  rewrite Hnet, He, Z.eqb_refl. reflexivity.
Qed.

Lemma iterate_retryable_answer w url method payload retries i delay st :
  retryable_answer (net w (sent st) (build_request url method payload))
    = true ->
  0 <= delay ->
  exists st',
    iterate w url method payload retries i delay st
      = (Ok (Continue (delay * 2)), st').
Proof.
  intros Hf Hd.
  unfold iterate, try_except, try_body, bind, send, print, emit, sleep, ret.
  replace (delay <? 0) with false by lia.
  destruct (net w (sent st) _) as [resp|e]; cbn in Hf; [|discriminate].
  rewrite Hf. cbn. eauto.
Qed.

(** [N] retryable failures in a row with an attempt left after each: the
    loop is [N] iterations further, and the log has grown by [N] requests
    and the first [N] doubling delays. *)
Lemma fetch_loop_retries_log w url method payload retries N :
  forall n i delay st,
    0 <= delay -> (N < n)%nat -> i + Z.of_nat n = retries ->
    (forall k, (k < N)%nat ->
       retryable_failure
         (net w (sent st + k) (build_request url method payload)) = true) ->
    exists st1,
      fetch_loop w url method payload retries n i delay st
        = fetch_loop w url method payload retries (n - N)%nat
            (i + Z.of_nat N) (delay * 2 ^ Z.of_nat N) st1 /\
      sleeps (log st1) = sleeps (log st) ++ doubling delay N /\
      requests (log st1) =
        requests (log st) ++ repeat (build_request url method payload) N /\
      sent st1 = (sent st + N)%nat.
Proof.
  induction N as [|N IH]; intros n i delay st Hd Hn Hi Hfail.
  - exists st. cbn. rewrite Nat.sub_0_r, Z.add_0_r, Z.mul_1_r, !app_nil_r.
    rewrite Nat.add_0_r. auto.
  - destruct n as [|n]; [lia|].
    rewrite fetch_loop_S.
    destruct (iterate_retry w url method payload retries i delay st)
      as [st0 Hit]; [ | lia | lia | ].
    { specialize (Hfail O). rewrite Nat.add_0_r in Hfail. apply Hfail. lia. }
    rewrite Hit.
    destruct (iterate_log _ _ _ _ _ _ _ _ _ _ Hit)
      as (Hsent & Hreq & _ & Hcont).
    destruct (Hcont _ eq_refl) as [_ Hsl].
    destruct (IH n (i + 1) (delay * 2) st0)
      as (st1 & Heq & Hsl1 & Hreq1 & Hsent1); [lia | lia | lia | | ].
    { intros k Hk. rewrite Hsent.
      replace (S (sent st) + k)%nat with (sent st + S k)%nat by lia.
      apply Hfail. lia. }
    exists st1.
    rewrite Heq, Hsl1, Hsl, Hreq1, Hreq, Hsent1, Hsent, doubling_S.
    rewrite <- !app_assoc. cbn [app repeat].
    rewrite Nat2Z.inj_succ, Z.pow_succ_r by lia.
    repeat split; try lia.
    f_equal; lia.
Qed.

Lemma iterate_returned w url method payload retries i delay st r st1 :
  iterate w url method payload retries i delay st = (Ok (Return r), st1) ->
  net w (sent st) (build_request url method payload) = Responded r /\
  acceptable_status (status_code r) = true.
Proof.
  unfold iterate, try_except, try_body, on_request_exception, bind, send,
    raise_for_status, print, emit, sleep, raise, ret, acceptable_status.
  destruct (net w (sent st) _) as [resp|e]; cbn.
  - destruct (is_retryable_status (status_code resp)) eqn:E1; cbn.
    + destruct (delay <? 0); cbn; discriminate.
    + destruct ((400 <=? status_code resp) && (status_code resp <? 600))
        eqn:E2; cbn.
      * destruct (i =? retries - 1); cbn; [discriminate|].
        destruct (delay <? 0); cbn; discriminate.
      * intros [= <- <-]. rewrite E1, E2. auto.
  - destruct (is_RequestException e); [|discriminate].
    destruct (i =? retries - 1); cbn; [discriminate|].
    destruct (delay <? 0); cbn; discriminate.
Qed.

Lemma fetch_loop_returned w url method payload retries n :
  forall i delay st r st',
    fetch_loop w url method payload retries n i delay st = (Ok r, st') ->
    acceptable_status (status_code r) = true /\
    exists s,
      sent st' = S s /\ (sent st <= s)%nat /\
      net w s (build_request url method payload) = Responded r.
Proof.
  induction n as [|n IH]; intros i delay st r st'; [discriminate|].
  rewrite fetch_loop_S.
  destruct (iterate w url method payload retries i delay st)
    as [[[resp|d]|e] st1] eqn:Hit; [ | | discriminate].
  - intros [= <- <-].
    destruct (iterate_returned _ _ _ _ _ _ _ _ _ _ Hit) as [Hnet Hok].
    destruct (iterate_log _ _ _ _ _ _ _ _ _ _ Hit) as (Hsent & _).
    split; [exact Hok|]. exists (sent st). auto.
  - intros Hrest.
    destruct (iterate_log _ _ _ _ _ _ _ _ _ _ Hit) as (Hsent & _).
    destruct (IH _ _ _ _ _ Hrest) as (Hok & s & H1 & H2 & H3).
    split; [exact Hok|]. exists s. repeat split; auto; lia.
Qed.

(** X2: a response [fetch_with_backoff] returns is the provider's answer to
    the last request the call sent, and its status is neither 429 nor in
    400-599. *)
Theorem fetch_returns_acceptable_response
        (w : env) (url method : string) (payload : option json)
        (retries delay : Z) (st : state) (r : response) (st' : state) :
  fetch_with_backoff w url method payload retries delay st = (Ok r, st') ->
  ~ (400 <= status_code r <= 599) /\
  (sent st < sent st')%nat /\
  net w (sent st' - 1) (build_request url method payload) = Responded r.
Proof.
  intros H. apply fetch_loop_returned in H.
  destruct H as (Hok & s & H1 & H2 & H3).
  unfold acceptable_status, is_retryable_status in Hok.
  rewrite H1. cbn [Nat.sub]. rewrite Nat.sub_0_r.
  repeat split; auto; lia.
Qed.

Lemma fetch_returns_acceptable_response_witness :
  ~ (400 <= status_code (mkResponse 200 (Some (JObj []))) <= 599) /\
  (sent initial < 3)%nat /\
  net flaky_env (3 - 1) (build_request "u" "GET" None)
    = Responded (mkResponse 200 (Some (JObj []))).
Proof.
  apply (fetch_returns_acceptable_response flaky_env "u" "GET" None 3 2
           initial (mkResponse 200 (Some (JObj [])))
           (snd (fetch_with_backoff flaky_env "u" "GET" None 3 2 initial))).
  reflexivity.
Defined.

(** X3: when the first [N] attempts fail in a retryable way and the next
    answer has an acceptable status, the call returns that answer after
    [N + 1] requests, having slept exactly the first [N] doubling delays
    (none at all when the first attempt succeeds). *)
Theorem fetch_succeeds_after_retries
        (w : env) (url method : string) (payload : option json)
        (retries delay : Z) (st : state) (N : nat) (r : response) :
  0 <= delay ->
  Z.of_nat N < retries ->
  (forall k, (k < N)%nat ->
     retryable_failure
       (net w (sent st + k) (build_request url method payload)) = true) ->
  net w (sent st + N) (build_request url method payload) = Responded r ->
  acceptable_status (status_code r) = true ->
  exists st',
    fetch_with_backoff w url method payload retries delay st = (Ok r, st') /\
    new_requests st st' = repeat (build_request url method payload) (S N) /\
    new_sleeps st st' = doubling delay N /\
    sent st' = (sent st + S N)%nat.
Proof.
  intros Hd HN Hfail Hnet Hok. unfold fetch_with_backoff.
  destruct (fetch_loop_retries_log w url method payload retries N
              (Z.to_nat retries) 0 delay st)
    as (st1 & Heq & Hsl & Hreq & Hsent); auto; try lia.
  rewrite Heq.
  destruct (Z.to_nat retries - N)%nat as [|m] eqn:Hm; [lia|].
  rewrite fetch_loop_S.
  rewrite <- Hsent in Hnet.
  rewrite (iterate_return _ _ _ _ _ _ _ _ _ Hnet Hok).
  eexists. split; [reflexivity|].
  unfold new_requests, new_sleeps, after_request. cbn [log sent].
  rewrite requests_app, sleeps_app, Hreq, Hsl, <- !app_assoc, !skipn_prefix.
  cbn. rewrite app_nil_r. repeat split; try lia.
  symmetry. apply repeat_cons.
Qed.

Lemma fetch_succeeds_after_retries_witness :
  exists st',
    fetch_with_backoff flaky_env "u" "GET" None 3 2 initial
      = (Ok (mkResponse 200 (Some (JObj []))), st') /\
    new_requests initial st' = repeat (build_request "u" "GET" None) 3 /\
    new_sleeps initial st' = doubling 2 2 /\
    sent st' = (sent initial + 3)%nat.
Proof.
  apply (fetch_succeeds_after_retries flaky_env "u" "GET" None 3 2 initial
           2 (mkResponse 200 (Some (JObj [])))).
  - lia.
  - cbn. lia.
  - intros k Hk. destruct k as [|[|k]]; [reflexivity | reflexivity | lia].
  - reflexivity.
  - reflexivity.
Defined.

(** X4: an exception of the transport that is not a [RequestException]
    ends the call at once, also after retries: it reaches the caller
    unchanged, with no sleep after it and no further request. *)
Theorem fetch_foreign_exception_propagates
        (w : env) (url method : string) (payload : option json)
        (retries delay : Z) (st : state) (N : nat) (e : exn) :
  0 <= delay ->
  Z.of_nat N < retries ->
  (forall k, (k < N)%nat ->
     retryable_failure
       (net w (sent st + k) (build_request url method payload)) = true) ->
  net w (sent st + N) (build_request url method payload) = Failed e ->
  is_RequestException e = false ->
  exists st',
    fetch_with_backoff w url method payload retries delay st
      = (Raise e, st') /\
    new_requests st st' = repeat (build_request url method payload) (S N) /\
    new_sleeps st st' = doubling delay N.
Proof.
  intros Hd HN Hfail Hnet He. unfold fetch_with_backoff.
  destruct (fetch_loop_retries_log w url method payload retries N
              (Z.to_nat retries) 0 delay st)
    as (st1 & Heq & Hsl & Hreq & Hsent); auto; try lia.
  rewrite Heq.
  destruct (Z.to_nat retries - N)%nat as [|m] eqn:Hm; [lia|].
  rewrite fetch_loop_S.
  rewrite <- Hsent in Hnet.
  rewrite (iterate_foreign _ _ _ _ _ _ _ _ _ Hnet He).
  eexists. split; [reflexivity|].
  unfold new_requests, new_sleeps, after_request. cbn [log sent].
  rewrite requests_app, sleeps_app, Hreq, Hsl, <- !app_assoc, !skipn_prefix.
  cbn. rewrite app_nil_r. split; [|reflexivity].
  symmetry. apply repeat_cons.
Qed.

Lemma fetch_foreign_exception_propagates_witness :
  exists st',
    fetch_with_backoff broken_env "u" "GET" None 5 2 initial
      = (Raise TypeError, st') /\
    new_requests initial st' = repeat (build_request "u" "GET" None) 3 /\
    new_sleeps initial st' = doubling 2 2.
Proof.
  apply (fetch_foreign_exception_propagates broken_env "u" "GET" None 5 2
           initial 2 TypeError).
  - lia.
  - cbn. lia.
  - intros k Hk. destruct k as [|[|k]]; [reflexivity | reflexivity | lia].
  - reflexivity.
  - reflexivity.
Defined.

Lemma fetch_loop_all_retryable_answers w url method payload retries n :
  forall i delay st,
    0 <= delay ->
    (forall k, (k < n)%nat ->
       retryable_answer
         (net w (sent st + k) (build_request url method payload)) = true) ->
    exists st',
      fetch_loop w url method payload retries n i delay st
        = (Raise exhausted, st') /\
      sleeps (log st') = sleeps (log st) ++ doubling delay n /\
      requests (log st') =
        requests (log st) ++ repeat (build_request url method payload) n /\
      sent st' = (sent st + n)%nat.
Proof.
  induction n as [|n IH]; intros i delay st Hd Hall.
  - exists st. cbn. rewrite !app_nil_r, Nat.add_0_r. auto.
  - rewrite fetch_loop_S.
    destruct (iterate_retryable_answer w url method payload retries i delay
                st) as [st0 Hit]; [ | lia | ].
    { specialize (Hall O). rewrite Nat.add_0_r in Hall. apply Hall. lia. }
    rewrite Hit.
    destruct (iterate_log _ _ _ _ _ _ _ _ _ _ Hit)
      as (Hsent & Hreq & _ & Hcont).
    destruct (Hcont _ eq_refl) as [_ Hsl].
    destruct (IH (i + 1) (delay * 2) st0)
      as (st1 & Heq & Hsl1 & Hreq1 & Hsent1); [lia | | ].
    { intros k Hk. rewrite Hsent.
      replace (S (sent st) + k)%nat with (sent st + S k)%nat by lia.
      apply Hall. lia. }
    exists st1.
    rewrite Heq, Hsl1, Hsl, Hreq1, Hreq, Hsent1, Hsent, doubling_S.
    rewrite <- !app_assoc. cbn [app repeat].
    repeat split; lia.
Qed.

(** X5: when every one of the [retries] attempts is answered with status
    429 or 5xx, the call raises [Exception("Fetch failed after all
    retries.")] after [retries] requests; it has slept after every one of
    them, the last included, so the sleeps are all of
    [delay, 2 delay, ..., 2^(retries-1) delay]. *)
Theorem fetch_exhausted_by_status
        (w : env) (url method : string) (payload : option json)
        (retries delay : Z) (st : state) :
  0 <= delay ->
  (forall k, (k < Z.to_nat retries)%nat ->
     retryable_answer
       (net w (sent st + k) (build_request url method payload)) = true) ->
  exists st',
    fetch_with_backoff w url method payload retries delay st
      = (Raise (PyException "Fetch failed after all retries."), st') /\
    new_requests st st'
      = repeat (build_request url method payload) (Z.to_nat retries) /\
    new_sleeps st st' = doubling delay (Z.to_nat retries).
Proof.
  intros Hd Hall. unfold fetch_with_backoff.
  destruct (fetch_loop_all_retryable_answers w url method payload retries
              (Z.to_nat retries) 0 delay st Hd Hall)
    as (st' & Hrun & Hsl & Hreq & _).
  exists st'. split; [exact Hrun|].
  unfold new_requests, new_sleeps. now rewrite Hreq, Hsl, !skipn_prefix.
Qed.

Lemma fetch_exhausted_by_status_witness :
  exists st',
    fetch_with_backoff limited_env "u" "GET" None 3 2 initial
      = (Raise (PyException "Fetch failed after all retries."), st') /\
    new_requests initial st'
      = repeat (build_request "u" "GET" None) (Z.to_nat 3) /\
    new_sleeps initial st' = doubling 2 (Z.to_nat 3).
Proof.
  apply (fetch_exhausted_by_status limited_env "u" "GET" None 3 2 initial).
  - lia.
  - intros k _. reflexivity.
Defined.

Example rate_limited_sleeps :
  sleeps
    (log (snd (fetch_with_backoff limited_env "u" "GET" None 3 2 initial)))
  = [2; 4; 8].
Proof. reflexivity. Qed.

(** X6: when the last of the [retries] attempts raises a
    [RequestException] and every attempt before it failed in a retryable
    way, the call prints the failure and re-raises that last exception; it
    has slept [retries - 1] times and not after the last attempt. *)
Theorem fetch_exhausted_by_exception
        (w : env) (url method : string) (payload : option json)
        (retries delay : Z) (st : state) (e : exn) :
  0 <= delay ->
  0 < retries ->
  (forall k, (k < Z.to_nat retries - 1)%nat ->
     retryable_failure
       (net w (sent st + k) (build_request url method payload)) = true) ->
  net w (sent st + (Z.to_nat retries - 1))
      (build_request url method payload) = Failed e ->
  is_RequestException e = true ->
  exists st',
    fetch_with_backoff w url method payload retries delay st
      = (Raise e, st') /\
    new_requests st st'
      = repeat (build_request url method payload) (Z.to_nat retries) /\
    new_sleeps st st' = doubling delay (Z.to_nat retries - 1) /\
    exists before, log st' = before ++ [EvPrint (MsgFetchFailed e)].
Proof.
  intros Hd Hr Hfail Hnet He. unfold fetch_with_backoff.
  destruct (fetch_loop_retries_log w url method payload retries
              (Z.to_nat retries - 1) (Z.to_nat retries) 0 delay st)
    as (st1 & Heq & Hsl & Hreq & Hsent); auto; try lia.
  rewrite Heq.
  replace (Z.to_nat retries - (Z.to_nat retries - 1))%nat with 1%nat by lia.
  replace (0 + Z.of_nat (Z.to_nat retries - 1)) with (retries - 1) by lia.
  rewrite fetch_loop_S.
  rewrite <- Hsent in Hnet.
  rewrite (iterate_last_exception _ _ _ _ _ _ _ _ Hnet He).
  eexists. split; [reflexivity|].
  unfold new_requests, new_sleeps. cbn [log sent].
  rewrite !requests_app, !sleeps_app, Hreq, Hsl, <- !app_assoc, !skipn_prefix.
  cbn. rewrite !app_nil_r. repeat split.
  - replace (Z.to_nat retries) with (S (Z.to_nat retries - 1)) at 2 by lia.
    symmetry. apply repeat_cons.
  - exists (log st1 ++ [EvRequest (build_request url method payload)]).
    now rewrite <- app_assoc.
Qed.

Lemma fetch_exhausted_by_exception_witness :
  exists st',
    fetch_with_backoff offline_env "u" "GET" None 3 2 initial
      = (Raise ConnectionError, st') /\
    new_requests initial st'
      = repeat (build_request "u" "GET" None) (Z.to_nat 3) /\
    new_sleeps initial st' = doubling 2 (Z.to_nat 3 - 1) /\
    exists before,
      log st' = before ++ [EvPrint (MsgFetchFailed ConnectionError)].
Proof.
  apply (fetch_exhausted_by_exception offline_env "u" "GET" None 3 2 initial
           ConnectionError).
  - lia.
  - lia.
  - intros k _. reflexivity.
  - reflexivity.
  - reflexivity.
Defined.

(* ================================================================== *)
(** * The requests a run sends *)

Lemma silent_ret {A} (a : A) : silent (ret a).
Proof. intros st r st' [= <- <-]. auto. Qed.

Lemma silent_raise {A} (e : exn) : silent (@raise A e).
Proof. intros st r st' [= <- <-]. auto. Qed.

Lemma silent_lift {A} (x : result A) : silent (lift x).
Proof. intros st r st' [= <- <-]. auto. Qed.

Lemma silent_print (m : message) : silent (print m).
Proof.
  intros st r st' [= <- <-]. cbn. rewrite requests_app. cbn.
  now rewrite app_nil_r.
Qed.

Lemma silent_bind {A B} (m : M A) (k : A -> M B) :
  silent m -> (forall a, silent (k a)) -> silent (bind m k).
Proof.
  intros Hm Hk st r st'. unfold bind.
  destruct (m st) as [[a|e] st1] eqn:E.
  - intros H. destruct (Hk _ _ _ _ H) as [H1 H2].
    destruct (Hm _ _ _ E) as [H3 H4]. split; congruence.
  - intros [= <- <-]. eapply Hm; eauto.
Qed.

Lemma silent_try {A} (m : M A) caught (h : exn -> M A) :
  silent m -> (forall e, silent (h e)) -> silent (try_except m caught h).
Proof.
  intros Hm Hh st r st'. unfold try_except.
  destruct (m st) as [[a|e] st1] eqn:E.
  - intros [= <- <-]. eapply Hm; eauto.
  - destruct (caught e).
    + intros H. destruct (Hh _ _ _ _ H) as [H1 H2].
      destruct (Hm _ _ _ E) as [H3 H4]. split; congruence.
    + intros [= <- <-]. eapply Hm; eauto.
Qed.

Create HintDb silent.
#[local] Hint Resolve silent_ret silent_raise silent_lift silent_print
  : silent.

Ltac silent_step :=
  first
    [ solve [auto with silent]
    | apply silent_bind; [|intros ?]
    | apply silent_try; [|intros ?]
    | match goal with
      | |- silent (if ?b then _ else _) => destruct b
      | |- silent (match ?x with _ => _ end) => destruct x
      end ].

Ltac silent_tac := repeat silent_step.

Lemma sends_silent {A} (P : request -> Prop) (k : nat) (m : M A) :
  silent m -> sends P k m.
Proof.
  intros H st r st' Hrun. destruct (H _ _ _ Hrun) as [H1 H2].
  exists []. rewrite app_nil_r, Nat.add_0_r. cbn.
  repeat split; auto. lia.
Qed.

Lemma sends_weaken {A} (P Q : request -> Prop) (k k' : nat) (m : M A) :
  (forall req, P req -> Q req) -> (k <= k')%nat ->
  sends P k m -> sends Q k' m.
Proof.
  intros HPQ Hk H st r st' Hrun.
  destruct (H _ _ _ Hrun) as (l & H1 & H2 & H3 & H4).
  exists l. repeat split; auto; [|lia].
  eapply Forall_impl; eauto.
Qed.

Lemma sends_bind {A B} (P : request -> Prop) (k1 k2 : nat)
      (m : M A) (k : A -> M B) :
  sends P k1 m -> (forall a, sends P k2 (k a)) ->
  sends P (k1 + k2) (bind m k).
Proof.
  intros Hm Hk st r st'. unfold bind.
  destruct (m st) as [[a|e] st1] eqn:E.
  - intros H.
    destruct (Hm _ _ _ E) as (l1 & H1 & H2 & H3 & H4).
    destruct (Hk _ _ _ _ H) as (l2 & H5 & H6 & H7 & H8).
    exists (l1 ++ l2). rewrite H5, H1, H8, H4, length_app, app_assoc.
    repeat split; auto; try lia. now apply Forall_app.
  - intros [= <- <-].
    destruct (Hm _ _ _ E) as (l1 & H1 & H2 & H3 & H4).
    exists l1. repeat split; auto. lia.
Qed.

Lemma sends_try {A} (P : request -> Prop) (k1 k2 : nat)
      (m : M A) caught (h : exn -> M A) :
  sends P k1 m -> (forall e, sends P k2 (h e)) ->
  sends P (k1 + k2) (try_except m caught h).
Proof.
  intros Hm Hh st r st'. unfold try_except.
  destruct (m st) as [[a|e] st1] eqn:E.
  - intros [= <- <-].
    destruct (Hm _ _ _ E) as (l1 & H1 & H2 & H3 & H4).
    exists l1. repeat split; auto. lia.
  - destruct (caught e).
    + intros H.
      destruct (Hm _ _ _ E) as (l1 & H1 & H2 & H3 & H4).
      destruct (Hh _ _ _ _ H) as (l2 & H5 & H6 & H7 & H8).
      exists (l1 ++ l2). rewrite H5, H1, H8, H4, length_app, app_assoc.
      repeat split; auto; try lia. now apply Forall_app.
    + intros [= <- <-].
      destruct (Hm _ _ _ E) as (l1 & H1 & H2 & H3 & H4).
      exists l1. repeat split; auto. lia.
Qed.

Lemma sends_fetch w url method payload retries delay :
  sends (eq (build_request url method payload)) (Z.to_nat retries)
        (fetch_with_backoff w url method payload retries delay).
Proof.
  intros st r st' Hrun. unfold fetch_with_backoff in Hrun.
  destruct (fetch_loop_bounds _ _ _ _ _ _ _ _ _ _ _ Hrun)
    as (k & m & Hreq & _ & Hsent & Hk & _).
  exists (repeat (build_request url method payload) k).
  rewrite repeat_length. repeat split; auto.
  apply Forall_forall. intros x Hx. symmetry. eapply repeat_spec; eauto.
Qed.

Lemma silent_response_json r : silent (response_json r).
Proof. unfold response_json. silent_tac. Qed.

Lemma silent_content_part_of result : silent (content_part_of result).
Proof. unfold content_part_of. silent_tac. Qed.

#[local] Hint Resolve silent_response_json silent_content_part_of : silent.

(** The requests of one call of the model's endpoint. *)
Lemma call_requests_shape
        (w : env) (prompt : string) (sys : option string)
        (tools sch : option json) :
  sends (fun req =>
           exists key,
             API_KEY w = Some key /\ key <> EmptyString /\
             req = Post (gemini_url key) headers
                        (Some (gemini_payload prompt sys tools sch)))
        3 (call_gemini_api w prompt sys tools sch).
Proof.
  unfold call_gemini_api.
  destruct (API_KEY w) as [[|c key]|] eqn:Hkey;
    try (apply sends_silent; apply silent_raise).
  apply (sends_bind _ 3 0).
  - eapply sends_weaken; [ | | apply sends_fetch]; [|cbn; lia].
    intros req <-. exists (String c key).
    repeat split; auto. discriminate.
  - intros r. apply sends_silent. silent_tac.
Qed.

(** X7: [call_gemini_api] sends at most three requests, and each of them is
    the POST of the assembled payload to the endpoint with the key
    appended; without a key it sends nothing. *)
Theorem call_gemini_api_requests
        (w : env) (prompt : string) (sys : option string)
        (tools sch : option json) :
  sends (fun req =>
           exists key,
             API_KEY w = Some key /\ key <> EmptyString /\
             req = Post (gemini_url key) headers
                        (Some (gemini_payload prompt sys tools sch)))
        3 (call_gemini_api w prompt sys tools sch).
Proof. apply call_requests_shape. Qed.

(* ================================================================== *)
(** * Further properties of [call_gemini_api] and [fetch_news_sentiment] *)

(** A first attempt that is answered with an acceptable status ends the
    call with that one request. *)
Lemma fetch_immediate w url method payload retries delay st r :
  0 < retries ->
  net w (sent st) (build_request url method payload) = Responded r ->
  acceptable_status (status_code r) = true ->
  fetch_with_backoff w url method payload retries delay st
    = (Ok r, after_request (build_request url method payload) st).
Proof.
  intros Hr Hnet Hok. unfold fetch_with_backoff.
  destruct (Z.to_nat retries) as [|n] eqn:Hn; [lia|].
  rewrite fetch_loop_S.
  now rewrite (iterate_return _ _ _ _ _ _ _ _ _ Hnet Hok).
Qed.

Lemma content_part_of_ok result st part st' :
  content_part_of result st = (Ok part, st') ->
  st' = st /\ Py.contains "text" part = Ok true.
Proof.
  unfold content_part_of, bind, lift.
  destruct (Py.get result "candidates" _) as [candidates|]; [|discriminate].
  destruct (Py.item0 candidates) as [candidate|]; [|discriminate].
  destruct (Py.get candidate "content" _) as [content|]; [|discriminate].
  destruct (Py.get content "parts" _) as [parts|]; [|discriminate].
  destruct (Py.item0 parts) as [content_part|]; [|discriminate].
  destruct (Py.contains "text" content_part) as [[|]|] eqn:E;
    cbn; try discriminate.
  intros [= <- <-]. auto.
Qed.

Lemma content_part_of_found body part st :
  has_text_part body part -> content_part_of body st = (Ok part, st).
Proof.
  intros [fields c rest ct p rest' H1 H2 H3 H4].
  unfold content_part_of, bind, lift. cbn.
  rewrite H1. cbn. rewrite H2. cbn. rewrite H3. cbn. rewrite H4.
  reflexivity.
Qed.

(** X8: what [call_gemini_api] returns always contains ["text"]: a
    response part is never handed to the caller without it. *)
Theorem call_returns_text_part
        (w : env) (prompt : string) (sys : option string)
        (tools sch : option json) (st : state) (part : json) (st' : state) :
  call_gemini_api w prompt sys tools sch st = (Ok part, st') ->
  Py.contains "text" part = Ok true.
Proof.
  unfold call_gemini_api.
  destruct (API_KEY w) as [[|c key]|]; try discriminate.
  unfold bind.
  destruct (fetch_with_backoff _ _ _ _ _ _ st) as [[r|e] st1];
    [|discriminate].
  destruct (response_json r st1) as [[body|e] st2]; [|discriminate].
  intros H. now apply content_part_of_ok in H.
Qed.

Lemma call_returns_text_part_witness :
  Py.contains "text" (JObj [("text", JStr "Mostly positive.")]) = Ok true.
Proof.
  apply (call_returns_text_part (text_env "Mostly positive.") "prompt" None
           None None initial (JObj [("text", JStr "Mostly positive.")])
           (snd (call_gemini_api (text_env "Mostly positive.") "prompt" None
                   None None initial))).
  reflexivity.
Defined.

(** A well-formed first answer ends the call with its first part. *)
Lemma call_first_part
        (w : env) (prompt : string) (sys : option string)
        (tools sch : option json) (st : state) (key : string)
        (r : response) (body part : json) :
  API_KEY w = Some key -> key <> EmptyString ->
  net w (sent st)
      (Post (gemini_url key) headers
            (Some (gemini_payload prompt sys tools sch))) = Responded r ->
  acceptable_status (status_code r) = true ->
  json_body r = Some body ->
  has_text_part body part ->
  call_gemini_api w prompt sys tools sch st
  = (Ok part,
     after_request (Post (gemini_url key) headers
                         (Some (gemini_payload prompt sys tools sch))) st).
Proof.
  intros Hkey Hne Hnet Hok Hbody Hpart. unfold call_gemini_api.
  rewrite Hkey. destruct key as [|c key]; [contradiction|].
  unfold bind.
  rewrite (fetch_immediate w _ "POST" _ 3 2 st r); [ | lia | exact Hnet | exact Hok].
  unfold response_json. rewrite Hbody. cbn [ret].
  now apply content_part_of_found.
Qed.

(** X9: with a key set, when the provider answers the first POST with an
    acceptable status and a body whose first candidate's content has a
    first part containing ["text"], [call_gemini_api] returns exactly that
    part after this one request, without sleeping or printing. *)
Theorem call_returns_first_part
        (w : env) (prompt : string) (sys : option string)
        (tools sch : option json) (st : state) (key : string)
        (r : response) (body part : json) :
  API_KEY w = Some key -> key <> EmptyString ->
  net w (sent st)
      (Post (gemini_url key) headers
            (Some (gemini_payload prompt sys tools sch))) = Responded r ->
  acceptable_status (status_code r) = true ->
  json_body r = Some body ->
  has_text_part body part ->
  call_gemini_api w prompt sys tools sch st
  = (Ok part,
     after_request (Post (gemini_url key) headers
                         (Some (gemini_payload prompt sys tools sch))) st).
Proof. apply call_first_part. Qed.

Lemma call_returns_first_part_witness :
  call_gemini_api (text_env "x") "prompt" None None None initial
  = (Ok (JObj [("text", JStr "x")]),
     after_request (Post (gemini_url "k") headers
                         (Some (gemini_payload "prompt" None None None)))
                   initial).
Proof.
  apply (call_returns_first_part (text_env "x") "prompt" None None None
           initial "k" (text_response "x")
           (JObj [("candidates", JArr [JObj [("content", text_parts "x")]])])
           (JObj [("text", JStr "x")])).
  - reflexivity.
  - discriminate.
  - reflexivity.
  - reflexivity.
  - reflexivity.
  - eapply text_part_found; reflexivity.
Defined.

(** X10: under the same conditions [fetch_news_sentiment] returns the value
    under ["text"] of that part, whatever it is, and prints no warning: the
    log grows by the announcement and the one request. *)
Theorem news_returns_model_text
        (w : env) (crypto_name : string) (st : state) (key : string)
        (r : response) (body part v : json) :
  API_KEY w = Some key -> key <> EmptyString ->
  net w (sent st)
      (Post (gemini_url key) headers
            (Some (gemini_payload (news_prompt crypto_name) None
                                  (Some news_tools) None))) = Responded r ->
  acceptable_status (status_code r) = true ->
  json_body r = Some body ->
  has_text_part body part ->
  Py.getitem part "text" = Ok v ->
  fetch_news_sentiment w crypto_name st
  = (Ok v,
     mkState (S (sent st))
       ((log st ++ [EvPrint (MsgFetchingNews crypto_name)])
          ++ [EvRequest
                (Post (gemini_url key) headers
                      (Some (gemini_payload (news_prompt crypto_name) None
                                            (Some news_tools) None)))])).
Proof.
  intros Hkey Hne Hnet Hok Hbody Hpart Hv.
  unfold fetch_news_sentiment, bind, try_except. cbn [print emit].
  unfold news_body, bind.
  erewrite call_first_part; eauto.
  unfold lift. rewrite Hv. reflexivity.
Qed.

Lemma news_returns_model_text_witness :
  fetch_news_sentiment (text_env "Mostly positive.") "Bitcoin" initial
  = (Ok (JStr "Mostly positive."),
     mkState 1
       ((log initial ++ [EvPrint (MsgFetchingNews "Bitcoin")])
          ++ [EvRequest
                (Post (gemini_url "k") headers
                      (Some (gemini_payload (news_prompt "Bitcoin") None
                                            (Some news_tools) None)))])).
Proof.
  apply (news_returns_model_text (text_env "Mostly positive.") "Bitcoin"
           initial "k" (text_response "Mostly positive.")
           (JObj [("candidates",
                   JArr [JObj [("content",
                                text_parts "Mostly positive.")]])])
           (JObj [("text", JStr "Mostly positive.")])
           (JStr "Mostly positive.")).
  - reflexivity.
  - discriminate.
  - reflexivity.
  - reflexivity.
  - reflexivity.
  - eapply text_part_found; reflexivity.
  - reflexivity.
Defined.

(* ================================================================== *)
(** * Further properties of [fetch_market_data] *)

(** Rows of numbers decode to a frame of the same rows. *)
Lemma DataFrame_prices_json (rows : list (Q * Q)) :
  Pandas.DataFrame (prices_json rows)
  = Ok (map (fun tc => (Fin (fst tc), Fin (snd tc))) rows).
Proof.
  unfold prices_json, Pandas.DataFrame.
  induction rows as [|[t c] rows IH]; [reflexivity|].
  cbn [map Pandas.rows]. rewrite IH. reflexivity.
Qed.

Lemma close_column (rows : list (Q * Q)) :
  map snd (map (fun tc : Q * Q => (Fin (fst tc), Fin (snd tc))) rows)
  = map Fin (map snd rows).
Proof. rewrite !map_map. reflexivity. Qed.

(** Line 137 accepts the timestamps of plain rows. *)
Lemma to_datetime_plain (rows : list (Q * Q)) :
  plain_rows rows ->
  Pandas.to_datetime
    (map fst (map (fun tc : Q * Q => (Fin (fst tc), Fin (snd tc))) rows))
  = Ok tt.
Proof.
  intros H. unfold Pandas.to_datetime.
  replace (forallb _ _) with true; [reflexivity|].
  symmetry. apply forallb_forall. intros t Ht.
  rewrite map_map in Ht. apply in_map_iff in Ht.
  destruct Ht as (tc & <- & Hin).
  unfold plain_rows in H. rewrite Forall_forall in H.
  now destruct (H tc Hin).
Qed.

(** The moving average kept for at least 20 closes. *)
Lemma latest_sma_value (closes : list Q) :
  (20 <= List.length closes)%nat ->
  Pandas.latest_sma (map Fin closes) = Ok (Fin (mean (last_n 20 closes))).
Proof.
  intros Hn. unfold Pandas.latest_sma.
  assert (Hlast : nth (List.length (Pandas.SMA_20 (map Fin closes)) - 1)
                      (Pandas.SMA_20 (map Fin closes)) NaN
                  = Fin (mean (last_n 20 closes))).
  { rewrite SMA_20_length, length_map, SMA_20_at by lia.
    unfold trailing, last_n.
    replace (List.length closes - 1 + 1 - 20)%nat
      with (List.length closes - 20)%nat by lia.
    rewrite firstn_all2 by (rewrite length_skipn; lia). reflexivity. }
  rewrite last_valid_last.
  - now rewrite Hlast.
  - intros E. apply (f_equal (@List.length _)) in E.
    rewrite SMA_20_length, length_map in E. cbn in E. lia.
  - now rewrite Hlast.
Qed.




(** X12: whenever [fetch_market_data] raises, the last thing it did was to
    print its error line for that very exception. *)
Theorem market_failure_is_reported
        (w : env) (crypto_id : string) (st : state) (e : exn) (st' : state) :
  fetch_market_data w crypto_id st = (Raise e, st') ->
  exists before, log st' = before ++ [EvPrint (MsgMarketError e)].
Proof.
  unfold fetch_market_data, bind, try_except. cbn [print emit].
  destruct (market_body w crypto_id _) as [[t|e0] st1]; [discriminate|].
  unfold print, emit, raise. intros [= <- <-]. cbn. eauto.
Qed.

Lemma market_failure_is_reported_witness :
  exists before,
    log (snd (fetch_market_data short_env "bitcoin" initial))
    = before ++ [EvPrint (MsgMarketError IndexError)].
Proof.
  apply (market_failure_is_reported short_env "bitcoin" initial IndexError
           (snd (fetch_market_data short_env "bitcoin" initial))).
  reflexivity.
Defined.

(** ** A flat history *)

Lemma is_nan_true (x : fval) : Float.is_nan x = true -> x = NaN.
Proof. destruct x; cbn; congruence. Qed.

Lemma flat_nth (closes : list Q) (c : Q) (j : nat) :
  Forall (fun q => (q == c)%Q) closes ->
  (j < List.length closes)%nat -> (nth j closes 0 == c)%Q.
Proof.
  intros H Hj. rewrite Forall_forall in H. apply H. now apply nth_In.
Qed.

Lemma flat_terms (closes : list Q) (c : Q) (j : nat) :
  Forall (fun q => (q == c)%Q) closes ->
  (j < List.length closes)%nat ->
  (gain_term closes j == 0 /\ loss_term closes j == 0)%Q.
Proof.
  intros H Hj. destruct j as [|k]; cbn; [split; lra|].
  pose proof (flat_nth closes c (S k) H Hj) as H1.
  pose proof (flat_nth closes c k H ltac:(lia)) as H2.
  cbn [nth] in H1.
  destruct (Float.Qlt_bool 0 _) eqn:E1, (Float.Qlt_bool _ 0) eqn:E2;
    qtests; split; lra.
Qed.

(** With all closes equal, every entry of the column is undefined. *)
Lemma flat_rsi_undefined (closes : list Q) (c : Q) :
  Forall (fun q => (q == c)%Q) closes ->
  Pandas.latest_rsi (map Fin closes) = Raise IndexError.
Proof.
  intros H. unfold Pandas.latest_rsi, Pandas.last_valid.
  rewrite RSI_14_tab. unfold tab.
  rewrite observed_all_nan; [reflexivity|].
  intros i Hi. apply in_seq in Hi.
  destruct (Nat.lt_ge_cases i 13) as [Hlt|Hge];
    [now apply code_rsi_early|].
  apply is_nan_true. unfold code_rsi_at.
  rewrite !mean_14_late by lia.
  apply index_of_nan. rewrite !div14.
  rewrite !Qsum_zero; [split; lra | | ];
    intros j Hj; apply in_seq in Hj;
    apply (flat_terms closes c j H); lia.
Qed.

(** X13: a price history whose closes are all equal, however long, with
    timestamps that line 137 converts and a close below 2^62 in magnitude,
    makes the indicator step raise [IndexError]: no delta is a gain or a
    loss, so every relative-strength entry is 0/0 and [dropna()] leaves
    nothing. *)
Theorem flat_history_fails
        (crypto_id : string) (history price_data : json)
        (rows : list (Q * Q)) (c : Q) (st : state) :
  Py.getitem history "prices" = Ok (prices_json rows) ->
  plain_rows rows ->
  Forall (fun tc => (snd tc == c)%Q) rows ->
  indicators crypto_id history price_data st = (Raise IndexError, st).
Proof.
  intros Hp Hplain Hflat. unfold indicators, bind, lift.
  rewrite Hp, DataFrame_prices_json, to_datetime_plain by exact Hplain.
  rewrite close_column.
  destruct (Nat.lt_ge_cases (List.length rows) 20) as [Hlt|Hge].
  - rewrite latest_sma_short; [reflexivity|]. now rewrite !length_map.
  - rewrite latest_sma_value by (now rewrite length_map).
    rewrite (flat_rsi_undefined _ c); [reflexivity|].
    apply Forall_map. exact Hflat.
Qed.

Lemma flat_history_fails_witness :
  indicators "bitcoin" (JObj [("prices", prices_json flat_rows)])
             (JObj [("bitcoin", JObj [("usd", JNum 7%Q)])]) initial
  = (Raise IndexError, initial).
Proof.
  apply (flat_history_fails "bitcoin" _ _ flat_rows 7%Q initial).
  - reflexivity.
  - unfold plain_rows, flat_rows. apply Forall_map, Forall_forall.
    intros k Hk. apply in_seq in Hk.
    do 25 (destruct k as [|k]; [split; reflexivity|]). lia.
  - unfold flat_rows. apply Forall_map, Forall_forall.
    intros k _. reflexivity.
Defined.

(** ** The range of the relative-strength index *)

Lemma index_of_range (a b : Q) :
  (0 <= a)%Q -> (0 <= b)%Q ->
  Float.is_nan (index_of (Fin a) (Fin b)) = false ->
  exists q, index_of (Fin a) (Fin b) = Fin q /\ (0 <= q <= 100)%Q.
Proof.
  intros Ha Hb. unfold index_of. cbn [Float.fdiv].
  destruct (Qeq_bool b 0) eqn:Eb.
  - destruct (Qeq_bool a 0) eqn:Ea; [discriminate|].
    qtests. assert (Hpos : (0 < a)%Q) by lra.
    apply Qlt_bool_iff in Hpos. rewrite Hpos. cbn. intros _.
    eexists. split; [reflexivity|]. split; cbn; lra.
  - qtests. intros _. cbn [Float.fadd Float.fdiv].
    assert (Hx : (0 <= a / b)%Q) by (apply Qle_shift_div_l; lra).
    remember (a / b)%Q as x eqn:Ex. clear Ex.
    rewrite (Qeq_bool_false (1 + x) 0) by lra.
    assert (Hy1 : (0 <= 100 / (1 + x))%Q) by (apply Qle_shift_div_l; lra).
    assert (Hy2 : (100 / (1 + x) <= 100)%Q) by (apply Qle_shift_div_r; lra).
    remember (100 / (1 + x))%Q as y eqn:Ey. clear Ey.
    cbn. eexists. split; [reflexivity|]. lra.
Qed.

Lemma last_default {A} (l : list A) (x y : A) : last (y :: l) x = last l y.
Proof.
  revert x y. induction l as [|a l IH]; intros x y; [reflexivity|].
  change (last (y :: a :: l) x) with (last (a :: l) x).
  now rewrite (IH x a), (IH y a).
Qed.

Lemma last_in {A} (l : list A) (x : A) : In (last l x) (x :: l).
Proof.
  revert x. induction l as [|a l IH]; intros x; [now left|].
  rewrite last_default. right. apply IH.
Qed.

Lemma last_valid_in (s : Pandas.series) (v : fval) :
  Pandas.last_valid s = Ok v -> In v s /\ Float.is_nan v = false.
Proof.
  unfold Pandas.last_valid.
  destruct (Pandas.observed s) as [|x l] eqn:E; [discriminate|].
  intros [= <-].
  pose proof (last_in l x) as Hin. rewrite <- E in Hin.
  unfold Pandas.observed in Hin. apply filter_In in Hin.
  destruct Hin as [H1 H2]. split; [exact H1|].
  now apply negb_true_iff in H2.
Qed.

(** X14: whatever the closes, a relative-strength value the function keeps
    is a finite number from 0 to 100. *)
Theorem rsi_in_range (closes : list Q) (v : fval) :
  Pandas.latest_rsi (map Fin closes) = Ok v ->
  exists q, v = Fin q /\ (0 <= q <= 100)%Q.
Proof.
  unfold Pandas.latest_rsi. rewrite RSI_14_tab. intros H.
  apply last_valid_in in H. destruct H as [Hin Hnan].
  unfold tab in Hin. apply in_map_iff in Hin.
  destruct Hin as (i & <- & Hi).
  destruct (Nat.lt_ge_cases i 13) as [Hlt|Hge].
  { rewrite code_rsi_early in Hnan by exact Hlt. discriminate. }
  unfold code_rsi_at in *. rewrite !mean_14_late in * by lia.
  apply index_of_range; [ | | exact Hnan]; rewrite div14.
  - pose proof (Qsum_nonneg (gain_term closes) (seq (i - 13) 14)
                  (fun j _ => gain_term_nonneg closes j)). lra.
  - pose proof (Qsum_nonneg (loss_term closes) (seq (i - 13) 14)
                  (fun j _ => loss_term_nonneg closes j)). lra.
Qed.

Lemma rsi_in_range_witness :
  exists q, Fin 100 = Fin q /\ (0 <= q <= 100)%Q.
Proof.
  apply (rsi_in_range rising (Fin 100)). vm_compute. reflexivity.
Defined.

(** ** The moving average stays among the closes *)

Lemma Qsum_bounds (l : list Q) (lo hi : Q) :
  Forall (fun q => (lo <= q <= hi)%Q) l ->
  (inject_Z (Z.of_nat (List.length l)) * lo <= Qsum l
   /\ Qsum l <= inject_Z (Z.of_nat (List.length l)) * hi)%Q.
Proof.
  induction 1 as [|q l Hq Hl IH].
  - cbn. change (inject_Z 0) with 0%Q. lra.
  - rewrite Qsum_cons. cbn [List.length].
    rewrite Nat2Z.inj_succ. unfold Z.succ. rewrite inject_Z_plus.
    remember (inject_Z (Z.of_nat (List.length l))) as k eqn:Ek. clear Ek.
    change (inject_Z 1) with 1%Q. destruct IH. lra.
Qed.

Lemma Forall_skipn {A} (P : A -> Prop) (k : nat) (l : list A) :
  Forall P l -> Forall P (skipn k l).
Proof.
  intros H. rewrite Forall_forall in *. intros x Hx. apply H.
  rewrite <- (firstn_skipn k l). apply in_or_app. now right.
Qed.

(** X15: when every close lies between [lo] and [hi], so does the moving
    average kept for a series of at least 20 closes. *)
Theorem sma_within_price_range (closes : list Q) (lo hi : Q) :
  (20 <= List.length closes)%nat ->
  Forall (fun q => (lo <= q <= hi)%Q) closes ->
  exists m,
    Pandas.latest_sma (map Fin closes) = Ok (Fin m) /\ (lo <= m <= hi)%Q.
Proof.
  intros Hn Hall. rewrite latest_sma_value by exact Hn.
  eexists. split; [reflexivity|].
  unfold mean, last_n.
  pose proof (Qsum_bounds _ lo hi
                (Forall_skipn _ (List.length closes - 20) _ Hall)) as Hb.
  rewrite length_skipn in *.
  replace (List.length closes - (List.length closes - 20))%nat
    with 20%nat in * by lia.
  change (inject_Z (Z.of_nat 20)) with 20%Q in *.
  remember (Qsum (skipn (List.length closes - 20) closes)) as s eqn:Es.
  clear Es. destruct Hb as [H1 H2].
  split; [apply Qle_shift_div_l | apply Qle_shift_div_r]; lra.
Qed.

Lemma sma_within_price_range_witness :
  exists m,
    Pandas.latest_sma (map Fin one_to_twenty) = Ok (Fin m) /\
    (1 <= m <= 20)%Q.
Proof.
  apply (sma_within_price_range one_to_twenty 1 20).
  - cbn. lia.
  - unfold one_to_twenty. apply Forall_map, Forall_forall.
    intros k Hk. apply in_seq in Hk.
    unfold Qle. cbn. lia.
Defined.

(* ================================================================== *)
(** * Further properties of [get_ai_analysis] and [run_analysis] *)

Section Run.

Variable json_loads : string -> option json.
Variable format_2f : fval -> string.
Variable py_str : json -> string.

(** X16: with a key set, when the provider answers the first POST with an
    acceptable status and a well-formed body whose text decodes to [v],
    [get_ai_analysis] returns [v] after that one request, having printed
    only its announcement. *)
Theorem analysis_returns_decoded_report
        (w : env) (crypto_name : string) (t : tech_data) (news : json)
        (st : state) (key prompt : string) (r : response)
        (body part : json) (text : string) (v : json) :
  API_KEY w = Some key -> key <> EmptyString ->
  user_prompt format_2f py_str crypto_name t news = Ok prompt ->
  net w (sent st)
      (Post (gemini_url key) headers
            (Some (gemini_payload prompt (Some system_prompt) None
                                  (Some schema)))) = Responded r ->
  acceptable_status (status_code r) = true ->
  json_body r = Some body ->
  has_text_part body part ->
  Py.getitem part "text" = Ok (JStr text) ->
  json_loads text = Some v ->
  get_ai_analysis json_loads format_2f py_str w crypto_name t news st
  = (Ok v,
     mkState (S (sent st))
       ((log st ++ [EvPrint MsgConsulting])
          ++ [EvRequest
                (Post (gemini_url key) headers
                      (Some (gemini_payload prompt (Some system_prompt) None
                                            (Some schema))))])).
Proof.
  intros Hkey Hne Hprompt Hnet Hok Hbody Hpart Htext Hv.
  unfold get_ai_analysis, bind, try_except. cbn [print emit].
  unfold lift at 1. rewrite Hprompt.
  erewrite call_first_part; eauto.
  unfold parse_report, try_except, bind, lift.
  rewrite Htext. cbn [loads]. rewrite Hv. reflexivity.
Qed.

(** X17: a current price that is neither a number nor a boolean cannot be
    formatted into the prompt: [get_ai_analysis] raises [TypeError] or
    [ValueError] right after its announcement, before anything is sent and
    without printing an error line. *)
Theorem analysis_rejects_unformattable_price
        (w : env) (crypto_name : string) (t : tech_data) (news : json)
        (st : state) :
  (forall q, current_price t <> JNum q) ->
  (forall b, current_price t <> JBool b) ->
  exists e,
    (e = TypeError \/ e = ValueError) /\
    get_ai_analysis json_loads format_2f py_str w crypto_name t news st
    = (Raise e, mkState (sent st) (log st ++ [EvPrint MsgConsulting])).
Proof.
  intros Hnum Hbool.
  unfold get_ai_analysis, bind. cbn [print emit].
  unfold lift, user_prompt, format_json_2f.
  destruct (current_price t) as [|b|q|s|l|f];
    try (now eexists; split; [left; reflexivity | reflexivity]);
    try (now eexists; split; [right; reflexivity | reflexivity]).
  - now destruct (Hbool b).
  - now destruct (Hnum q).
Qed.

(** X18: when the provider answers the POST of the analysis with an
    acceptable status and a body that is not JSON, the decoding error of
    [response.json()] is caught by the handler for [json.JSONDecodeError],
    whose second line reads the local variable [response_part] that was
    never bound: the caller gets [UnboundLocalError], after the line about
    invalid JSON. *)
Theorem analysis_body_not_json
        (w : env) (crypto_name : string) (t : tech_data) (news : json)
        (st : state) (key prompt : string) (r : response) :
  API_KEY w = Some key -> key <> EmptyString ->
  user_prompt format_2f py_str crypto_name t news = Ok prompt ->
  net w (sent st)
      (Post (gemini_url key) headers
            (Some (gemini_payload prompt (Some system_prompt) None
                                  (Some schema)))) = Responded r ->
  acceptable_status (status_code r) = true ->
  json_body r = None ->
  get_ai_analysis json_loads format_2f py_str w crypto_name t news st
  = (Raise UnboundLocalError,
     mkState (S (sent st))
       (((log st ++ [EvPrint MsgConsulting])
           ++ [EvRequest
                 (Post (gemini_url key) headers
                       (Some (gemini_payload prompt (Some system_prompt)
                                             None (Some schema))))])
          ++ [EvPrint MsgInvalidJson])).
Proof.
  intros Hkey Hne Hprompt Hnet Hok Hbody.
  unfold get_ai_analysis, bind, try_except. cbn [print emit].
  unfold lift at 1. rewrite Hprompt.
  unfold call_gemini_api. rewrite Hkey.
  destruct key as [|c key]; [contradiction|].
  unfold bind.
  rewrite (fetch_immediate w _ "POST" _ 3 2 _ r);
    [ | lia | exact Hnet | exact Hok].
  unfold response_json. rewrite Hbody. reflexivity.
Qed.

(** X19: [run_analysis] never raises: whatever the input and the
    providers, it ends normally. *)
Theorem run_never_raises (w : env) (st : state) :
  exists st',
    run_analysis json_loads format_2f py_str w st = (Ok tt, st').
Proof.
  unfold run_analysis, try_except.
  destruct (run_body json_loads format_2f py_str w st) as [[[]|e] st1].
  - eexists. reflexivity.
  - eexists. reflexivity.
Qed.

Lemma lower_space (c : ascii) :
  PyStr.is_space c = true -> PyStr.lower_char c = c.
Proof.
  unfold PyStr.is_space, PyStr.lower_char, PyStr.is_upper_char.
  cbv zeta. remember (nat_of_ascii c) as n eqn:En. clear En.
  intros H.
  destruct ((65 <=? n)%nat && (n <=? 90)%nat) eqn:E; [|reflexivity].
  exfalso.
  apply andb_true_iff in E as [E1 E2]. apply Nat.leb_le in E1, E2.
  apply orb_true_iff in H as [H|H];
    apply andb_true_iff in H as [H1 H2]; apply Nat.leb_le in H1, H2; lia.
Qed.

Lemma strip_blank (s : string) :
  all_space s = true -> PyStr.strip (PyStr.lower s) = EmptyString.
Proof.
  intros H. unfold PyStr.strip.
  assert (Hl : PyStr.lstrip (PyStr.lower s) = EmptyString).
  { induction s as [|c s IH]; [reflexivity|].
    cbn in H. apply andb_true_iff in H as [Hc Hs].
    cbn [PyStr.lower PyStr.lstrip]. rewrite (lower_space c Hc), Hc.
    now apply IH. }
  now rewrite Hl.
Qed.

(** X20: an input line of white space only (or an empty one) ends the run
    at once: the line about the missing input is printed, nothing is
    fetched and nothing else is printed. *)
Theorem blank_input_exits (w : env) (st : state) :
  all_space (user_input w) = true ->
  run_analysis json_loads format_2f py_str w st
  = (Ok tt, mkState (sent st) (log st ++ [EvPrint MsgNoInput])).
Proof.
  intros H. unfold run_analysis, run_body, try_except.
  rewrite (strip_blank _ H). reflexivity.
Qed.

(** Once the analysis step has returned, the run is the printing of the
    report. *)
Lemma run_after_analysis (w : env) (st : state) (crypto_name : string)
      (t : tech_data) (news : json) (st2 : state) (report : json)
      (st3 : state) :
  reaches_analysis w st crypto_name t news st2 ->
  get_ai_analysis json_loads format_2f py_str w crypto_name t news st2
    = (Ok report, st3) ->
  run_analysis json_loads format_2f py_str w st
  = try_except (print_report format_2f t report) (fun _ => true)
               (fun e => print (MsgRunError e)) st3.
Proof.
  intros (Hin & Hname & st1 & Hmarket & Hnews) Hai.
  unfold run_analysis, run_body, try_except.
  rewrite Hin. cbn [negb].
  destruct (resolve _) as [coin_id name] eqn:Hres. cbn [fst snd] in *.
  subst name.
  unfold bind at 1.
  destruct (print (MsgAnalyzing crypto_name) st) as [[[]|e0] st0] eqn:Hp;
    [|discriminate].
  cbn [snd] in Hmarket.
  unfold bind at 1. rewrite Hmarket.
  unfold bind at 1. rewrite Hnews.
  unfold bind at 1. rewrite Hai. reflexivity.
Qed.

(** X21: when the analysis step returns a report with the three fields and
    the current price is a number, the run ends by printing the eight
    lines of the report, in order, and no error line. *)
Theorem run_prints_full_report
        (w : env) (st : state) (crypto_name : string) (t : tech_data)
        (news : json) (st2 : state) (report : json) (st3 : state)
        (q : Q) (analysis recommendation confidence : json) :
  reaches_analysis w st crypto_name t news st2 ->
  get_ai_analysis json_loads format_2f py_str w crypto_name t news st2
    = (Ok report, st3) ->
  current_price t = JNum q ->
  Py.getitem report "analysis" = Ok analysis ->
  Py.getitem report "recommendation" = Ok recommendation ->
  Py.getitem report "confidence" = Ok confidence ->
  run_analysis json_loads format_2f py_str w st
  = (Ok tt,
     mkState (sent st3)
       (log st3 ++ full_report t analysis recommendation confidence)).
Proof.
  intros Hreach Hai Hprice Ha Hr Hc.
  rewrite (run_after_analysis _ _ _ _ _ _ _ _ Hreach Hai).
  unfold try_except, print_report, bind, lift, print, emit, format_json_2f,
    full_report.
  rewrite Hprice, Ha, Hr, Hc. cbn.
  rewrite <- !app_assoc. reflexivity.
Qed.

(** X22: when the report the model returned lacks the field ["analysis"]
    (or is not an object at all), the technical section and the heading of
    the analyst section are already printed when the lookup raises; the run
    ends with these five lines followed by the error line. *)
Theorem run_prints_partial_report
        (w : env) (st : state) (crypto_name : string) (t : tech_data)
        (news : json) (st2 : state) (report : json) (st3 : state)
        (q : Q) (e : exn) :
  reaches_analysis w st crypto_name t news st2 ->
  get_ai_analysis json_loads format_2f py_str w crypto_name t news st2
    = (Ok report, st3) ->
  current_price t = JNum q ->
  Py.getitem report "analysis" = Raise e ->
  run_analysis json_loads format_2f py_str w st
  = (Ok tt,
     mkState (sent st3)
       (log st3 ++ technical_section t ++ [EvPrint (MsgRunError e)])).
Proof.
  intros Hreach Hai Hprice Ha.
  rewrite (run_after_analysis _ _ _ _ _ _ _ _ Hreach Hai).
  unfold try_except, print_report, bind, lift, print, emit, format_json_2f,
    technical_section.
  rewrite Hprice, Ha. cbn.
  rewrite <- !app_assoc. reflexivity.
Qed.

End Run.

(** ** Closed instances *)

Lemma analysis_returns_decoded_report_witness :
  get_ai_analysis literal_loads fixed_2f fixed_str (text_env "true")
                  "Bitcoin" sample_tech (JStr "calm") initial
  = (Ok (JBool true),
     mkState 1
       ((log initial ++ [EvPrint MsgConsulting])
          ++ [EvRequest
                (Post (gemini_url "k") headers
                      (Some (gemini_payload sample_prompt
                               (Some system_prompt) None (Some schema))))])).
Proof.
  apply (analysis_returns_decoded_report literal_loads fixed_2f fixed_str
           (text_env "true") "Bitcoin" sample_tech (JStr "calm") initial
           "k" sample_prompt (text_response "true") (text_body "true")
           (JObj [("text", JStr "true")]) "true" (JBool true)).
  - reflexivity.
  - discriminate.
  - reflexivity.
  - reflexivity.
  - reflexivity.
  - reflexivity.
  - eapply text_part_found; reflexivity.
  - reflexivity.
  - reflexivity.
Defined.

Lemma analysis_rejects_unformattable_price_witness :
  exists e,
    (e = TypeError \/ e = ValueError) /\
    get_ai_analysis literal_loads fixed_2f fixed_str (text_env "true")
                    "Bitcoin" (mkTech JNull (Fin 1) (Fin 1)) (JStr "calm")
                    initial
    = (Raise e, mkState (sent initial) (log initial ++ [EvPrint MsgConsulting])).
Proof.
  apply (analysis_rejects_unformattable_price literal_loads fixed_2f
           fixed_str (text_env "true") "Bitcoin"
           (mkTech JNull (Fin 1) (Fin 1)) (JStr "calm") initial);
    discriminate.
Defined.

Lemma analysis_body_not_json_witness :
  get_ai_analysis literal_loads fixed_2f fixed_str no_json_env
                  "Bitcoin" sample_tech (JStr "calm") initial
  = (Raise UnboundLocalError,
     mkState 1
       (((log initial ++ [EvPrint MsgConsulting])
           ++ [EvRequest
                 (Post (gemini_url "k") headers
                       (Some (gemini_payload sample_prompt
                                (Some system_prompt) None (Some schema))))])
          ++ [EvPrint MsgInvalidJson])).
Proof.
  apply (analysis_body_not_json literal_loads fixed_2f fixed_str no_json_env
           "Bitcoin" sample_tech (JStr "calm") initial "k" sample_prompt
           (mkResponse 200 None)).
  - reflexivity.
  - discriminate.
  - reflexivity.
  - reflexivity.
  - reflexivity.
  - reflexivity.
Defined.

Lemma blank_input_exits_witness :
  run_analysis literal_loads fixed_2f fixed_str blank_env initial
  = (Ok tt, mkState (sent initial) (log initial ++ [EvPrint MsgNoInput])).
Proof.
  apply (blank_input_exits literal_loads fixed_2f fixed_str blank_env
           initial).
  reflexivity.
Defined.

Lemma run_reaches_analysis (w : env) :
  user_input w = " BTC " ->
  (exists t, fst (run_market w) = Ok t) ->
  (exists v, fst (fetch_news_sentiment w "Bitcoin" (snd (run_market w)))
             = Ok v /\ v = JStr "Mostly positive.") ->
  reaches_analysis w initial "Bitcoin" (run_tech w)
                   (JStr "Mostly positive.") (run_st2 w).
Proof.
  intros Hin [t Ht] (v & Hv & ->).
  unfold reaches_analysis. rewrite Hin. cbv zeta.
  change (PyStr.strip (PyStr.lower " BTC ")) with "btc"%string.
  change (resolve "btc") with ("bitcoin"%string, "Bitcoin"%string).
  cbn [fst snd].
  split; [reflexivity|]. split; [reflexivity|].
  exists (snd (run_market w)). split.
  - fold (run_market w).
    unfold run_tech. destruct (run_market w) as [r s].
    cbn [fst snd] in *. now rewrite Ht.
  - unfold run_st2.
    destruct (fetch_news_sentiment w "Bitcoin" (snd (run_market w)))
      as [r s].
    cbn [fst snd] in *. now rewrite Hv.
Qed.

Lemma run_prints_full_report_witness :
  run_analysis report_loads fixed_2f fixed_str report_env initial
  = (Ok tt,
     mkState (sent (snd (run_ai report_loads report_env)))
       (log (snd (run_ai report_loads report_env))
          ++ full_report (run_tech report_env)
               (JStr "Price above the average.") (JStr "Buy")
               (JStr "High"))).
Proof.
  apply (run_prints_full_report report_loads fixed_2f fixed_str report_env
           initial "Bitcoin" (run_tech report_env)
           (JStr "Mostly positive.") (run_st2 report_env) sample_report
           (snd (run_ai report_loads report_env)) 50000%Q).
  - apply run_reaches_analysis; [reflexivity | | ].
    + eexists. vm_compute. reflexivity.
    + eexists. split; vm_compute; reflexivity.
  - vm_compute. reflexivity.
  - vm_compute. reflexivity.
  - reflexivity.
  - reflexivity.
  - reflexivity.
Defined.

Lemma run_prints_partial_report_witness :
  run_analysis literal_loads fixed_2f fixed_str null_report_env initial
  = (Ok tt,
     mkState (sent (snd (run_ai literal_loads null_report_env)))
       (log (snd (run_ai literal_loads null_report_env))
          ++ technical_section (run_tech null_report_env)
          ++ [EvPrint (MsgRunError TypeError)])).
Proof.
  apply (run_prints_partial_report literal_loads fixed_2f fixed_str
           null_report_env initial "Bitcoin" (run_tech null_report_env)
           (JStr "Mostly positive.") (run_st2 null_report_env) JNull
           (snd (run_ai literal_loads null_report_env)) 50000%Q).
  - apply run_reaches_analysis; [reflexivity | | ].
    + eexists. vm_compute. reflexivity.
    + eexists. split; vm_compute; reflexivity.
  - vm_compute. reflexivity.
  - vm_compute. reflexivity.
  - reflexivity.
Defined.

(* ================================================================== *)
(** * The requests of the whole run *)

Lemma sends_market (w : env) (crypto_id : string) :
  sends (is_market_get crypto_id) 6 (fetch_market_data w crypto_id).
Proof.
  unfold fetch_market_data.
  apply (sends_bind _ 0 6); [apply sends_silent, silent_print|]. intros _.
  apply (sends_try _ 6 0).
  2:{ intros e. apply sends_silent. silent_tac. }
  unfold market_body, fetch_default.
  apply (sends_bind _ 3 3).
  { eapply sends_weaken; [ | | apply sends_fetch]; [|cbn; lia].
    intros req <-. now left. }
  intros hr. apply (sends_bind _ 0 3).
  { apply sends_silent, silent_response_json. }
  intros history. apply (sends_bind _ 3 0).
  { eapply sends_weaken; [ | | apply sends_fetch]; [|cbn; lia].
    intros req <-. now right. }
  intros pr. apply sends_silent. unfold indicators. silent_tac.
Qed.

Lemma sends_call (w : env) prompt sys tools sch :
  sends (is_gemini_post w) 3 (call_gemini_api w prompt sys tools sch).
Proof.
  eapply sends_weaken; [ | | apply call_requests_shape]; [|lia].
  intros req (key & H1 & H2 & H3). now exists key, (gemini_payload prompt sys tools sch).
Qed.

Lemma sends_news (w : env) (crypto_name : string) :
  sends (is_gemini_post w) 3 (fetch_news_sentiment w crypto_name).
Proof.
  unfold fetch_news_sentiment.
  apply (sends_bind _ 0 3); [apply sends_silent, silent_print|]. intros _.
  apply (sends_try _ 3 0).
  2:{ intros e. apply sends_silent. silent_tac. }
  unfold news_body. apply (sends_bind _ 3 0); [apply sends_call|].
  intros part. apply sends_silent, silent_lift.
Qed.

Section RunRequests.

Variable json_loads : string -> option json.
Variable format_2f : fval -> string.
Variable py_str : json -> string.

Lemma silent_on_analysis_error part e : silent (on_analysis_error part e).
Proof. unfold on_analysis_error. silent_tac. Qed.

Lemma sends_analysis (w : env) crypto_name t news :
  sends (is_gemini_post w) 3
        (get_ai_analysis json_loads format_2f py_str w crypto_name t news).
Proof.
  unfold get_ai_analysis.
  apply (sends_bind _ 0 3); [apply sends_silent, silent_print|]. intros _.
  apply (sends_bind _ 0 3); [apply sends_silent, silent_lift|]. intros p.
  apply (sends_bind _ 3 0).
  - apply (sends_try _ 3 0); [apply sends_call|].
    intros e. apply sends_silent, silent_on_analysis_error.
  - intros part. apply sends_silent. unfold parse_report.
    apply silent_try; [silent_tac|].
    intros e. apply silent_on_analysis_error.
Qed.

Lemma silent_print_report t report : silent (print_report format_2f t report).
Proof. unfold print_report. silent_tac. Qed.

(** The requests of a whole run. *)
Lemma sends_run (w : env) :
  sends (fun req => is_market_get (run_coin_id w) req \/ is_gemini_post w req)
        12 (run_analysis json_loads format_2f py_str w).
Proof.
  unfold run_analysis.
  apply (sends_try _ 12 0).
  2:{ intros e. apply sends_silent, silent_print. }
  unfold run_body, run_coin_id.
  destruct (negb (PyStr.truthy _)); [apply sends_silent, silent_print|].
  destruct (resolve _) as [coin_id crypto_name]. cbn [fst].
  apply (sends_bind _ 0 12); [apply sends_silent, silent_print|]. intros _.
  apply (sends_bind _ 6 6).
  { eapply sends_weaken; [ | | apply sends_market]; [|lia]. now left. }
  intros t. apply (sends_bind _ 3 3).
  { eapply sends_weaken; [ | | apply sends_news]; [|lia]. now right. }
  intros news. apply (sends_bind _ 3 0).
  { eapply sends_weaken; [ | | apply sends_analysis]; [|lia]. now right. }
  intros report. apply sends_silent, silent_print_report.
Qed.

(** X23: a run sends at most twelve requests, and each of them is a GET of
    one of the two market-data URLs of the resolved asset id or a POST to
    the model's endpoint with the key of the run; nothing else is ever
    sent. *)
Theorem run_requests (w : env) :
  sends (fun req => is_market_get (run_coin_id w) req \/ is_gemini_post w req)
        12 (run_analysis json_loads format_2f py_str w).
Proof. apply sends_run. Qed.

(** X24: without a key (none, or an empty one) the run never sends a POST:
    all it sends are at most six GETs of the market-data URLs. *)
Theorem run_without_key_sends_no_post (w : env) :
  API_KEY w = None \/ API_KEY w = Some EmptyString ->
  sends (is_market_get (run_coin_id w)) 6
        (run_analysis json_loads format_2f py_str w).
Proof.
  intros Hkey.
  assert (Hcall : forall prompt sys tools sch,
             silent (call_gemini_api w prompt sys tools sch)).
  { intros. unfold call_gemini_api.
    destruct Hkey as [-> | ->]; apply silent_raise. }
  unfold run_analysis.
  apply (sends_try _ 6 0).
  2:{ intros e. apply sends_silent, silent_print. }
  unfold run_body, run_coin_id.
  destruct (negb (PyStr.truthy _)); [apply sends_silent, silent_print|].
  destruct (resolve _) as [coin_id crypto_name]. cbn [fst].
  apply (sends_bind _ 0 6); [apply sends_silent, silent_print|]. intros _.
  apply (sends_bind _ 6 0); [apply sends_market|].
  intros t. apply sends_silent.
  apply silent_bind.
  { unfold fetch_news_sentiment, news_body.
    apply silent_bind; [apply silent_print|]. intros _.
    apply silent_try; [|intros e; silent_tac].
    apply silent_bind; [apply Hcall | intros; apply silent_lift]. }
  intros news. apply silent_bind; [|intros; apply silent_print_report].
  unfold get_ai_analysis.
  apply silent_bind; [apply silent_print|]. intros _.
  apply silent_bind; [apply silent_lift|]. intros p.
  apply silent_bind.
  - apply silent_try; [apply Hcall|].
    intros e. apply silent_on_analysis_error.
  - intros part. unfold parse_report.
    apply silent_try; [silent_tac|].
    intros e. apply silent_on_analysis_error.
Qed.

End RunRequests.

Lemma run_without_key_sends_no_post_witness :
  sends (is_market_get (run_coin_id no_key_env)) 6
        (run_analysis literal_loads fixed_2f fixed_str no_key_env).
Proof.
  apply (run_without_key_sends_no_post literal_loads fixed_2f fixed_str
           no_key_env).
  left. reflexivity.
Defined.

(* ================================================================== *)
(** * The symbol table and the entry point *)

Lemma resolve_cases (x : string) :
  resolve x = (x, PyStr.capitalize x) \/ In x (map fst crypto_map).
Proof.
  unfold resolve, crypto_map. cbn [map_get map fst].
  repeat match goal with
         | |- context [String.eqb x ?k] =>
             destruct (String.eqb_spec x k); [right; subst; cbn; tauto|]
         end.
  left. reflexivity.
Qed.

(** X25: the provider id a run resolves an input to is itself an input that
    resolves to the same id and display name, for the listed symbols and
    names as for any other input. *)
Theorem resolve_is_stable (crypto_input : string) :
  resolve (fst (resolve crypto_input)) = resolve crypto_input.
Proof.
  destruct (resolve_cases crypto_input) as [H|H].
  - rewrite H. cbn [fst]. exact H.
  - cbn in H. decompose [or] H; subst; try reflexivity. contradiction.
Qed.

Section Main.

Variable json_loads : string -> option json.
Variable format_2f : fval -> string.
Variable py_str : json -> string.

(** X26: a non-empty key given on the command line takes precedence over
    the one of the environment: the analysis is run, and every POST it
    sends goes to the endpoint with the command-line key appended, whatever
    the environment held. *)
Theorem main_prefers_command_line_key
        (w : env) (k : string) (st : state) :
  k <> EmptyString ->
  exists run,
    main json_loads format_2f py_str w (Some k) st = Analysed run /\
    run = run_analysis json_loads format_2f py_str (with_key w (Some k)) st /\
    forall req,
      In req (new_requests st (snd run)) ->
      is_market_get (run_coin_id w) req \/
      exists payload, req = Post (gemini_url k) headers (Some payload).
Proof.
  intros Hk. unfold main, resolve_key.
  destruct k as [|c k]; [contradiction|]. cbn [PyStr.truthy].
  eexists. split; [reflexivity|]. split; [reflexivity|].
  intros req Hin.
  destruct (run_analysis json_loads format_2f py_str
              (with_key w (Some (String c k))) st) as [r st'] eqn:Hrun.
  destruct (sends_run json_loads format_2f py_str _ _ _ _ Hrun)
    as (l & Hreq & Hall & _).
  cbn [snd] in Hin. unfold new_requests in Hin.
  rewrite Hreq, skipn_prefix in Hin.
  rewrite Forall_forall in Hall.
  destruct (Hall req Hin) as [Hget | (key & payload & Hkey & _ & ->)].
  - left. exact Hget.
  - right. cbn in Hkey. injection Hkey as <-. now exists payload.
Qed.

(** Without any key the entry point prints its two lines and runs
    nothing. *)
Lemma main_without_key (w : env) (st : state) :
  API_KEY w = None ->
  main json_loads format_2f py_str w None st
  = KeyMissing [MsgKeyNotProvided; MsgKeyUsage].
Proof. intros H. unfold main, resolve_key. now rewrite H. Qed.

End Main.

Lemma main_prefers_command_line_key_witness :
  exists run,
    main report_loads fixed_2f fixed_str env_key_env (Some "from-cli")
         initial = Analysed run /\
    run = run_analysis report_loads fixed_2f fixed_str
            (with_key env_key_env (Some "from-cli")) initial /\
    forall req,
      In req (new_requests initial (snd run)) ->
      is_market_get (run_coin_id env_key_env) req \/
      exists payload,
        req = Post (gemini_url "from-cli") headers (Some payload).
Proof.
  apply (main_prefers_command_line_key report_loads fixed_2f fixed_str
           env_key_env "from-cli" initial).
  discriminate.
Defined.

Example command_line_key_is_used :
  exists payload,
    nth 3 (requests
             (log (snd (run_analysis report_loads fixed_2f fixed_str
                          (with_key env_key_env (Some "from-cli"))
                          initial))))
        (Get EmptyString [])
    = Post (gemini_url "from-cli") headers (Some payload).
Proof. eexists. vm_compute. reflexivity. Qed.

(* ================================================================== *)
(** * The relative-strength index that [fetch_market_data] returns *)

(** ** The index of the specification and the entries of the column *)









(** ** The latest defined entry of a column *)





(** ** From the provider's answers to the returned snapshot *)









(** ** Monotone histories *)




(** ** The most recent defined value *)




(* ================================================================== *)
(** * Texts that the decoder accepts and JSON does not *)

Example json_texts :
  JsonText.is_json "[1, -2.5e3, true, null]" = true /\
  JsonText.is_json
    ("{" ++ JsonText.quoted "analysis" ++ ": " ++ JsonText.quoted "calm"
         ++ "}")%string = true /\
  JsonText.is_json "[1,]" = false /\
  JsonText.is_json "01" = false /\
  JsonText.is_json "Sure! Here is my analysis" = false /\
  JsonText.is_json "Infinity" = false.
Proof. repeat split; reflexivity. Qed.

(** C7, as stated: the text [NaN] is not valid JSON, and [json.loads]
    decodes it to a float.  [get_ai_analysis] returns that float instead of
    failing, and the run prints the technical section of the report before
    it fails on the first field. *)
Lemma nan_text_is_decoded :
  JsonText.is_json "NaN" = false /\
  lenient_loads "NaN" = Some (JNum NaN) /\
  fst (run_ai lenient_loads nan_env) = Ok (JNum NaN) /\
  report_events
    (log (snd (run_analysis lenient_loads fixed_2f fixed_str nan_env
                 initial)))
  = technical_section (run_tech nan_env).
Proof. repeat split; vm_compute; reflexivity. Qed.
